(** * TimelineDropsChart: the player-drops timeline component

    A shallow embedding of
    [panel/src/pages/PlayerDropsPage/TimelineDropsChart.tsx]:
    the [ChartLabels] legend, the render function of [TimelineDropsChart],
    the body of its [useEffect], and the render/commit/effect cycle that
    React runs around them.

    Conventions of the embedding
    - a JavaScript [number] holding a pixel size or a counter is an integer
      ([Z] for [width]/[height], [nat] for [errorRetry]); its truthiness is
      "different from zero"; a subtraction of two such numbers is the
      exact difference rounded to the nearest double ([jsSub]);
    - a string is truthy when it is not the empty string;
    - an object compared by [Object.is] (the [chartData] prop in the
      dependency list) carries its identity next to its contents;
    - a JavaScript exception leaving a function is the [None] of an
      [option] result, or an explicit completion record for the drawing
      routine;
    - the two imported collaborators, [playerDropCategories] and
      [drawDropsTimeline], are the fields of the class [Collaborators]. *)

From Stdlib Require Import ZArith.
From Stdlib Require PrimFloat FloatOps SpecFloat Uint63.
From stdpp Require Import base option list strings gmap pretty.

Local Open Scope Z_scope.

(** ** JavaScript values *)

(** [!n] is [true] exactly for the falsy numbers; on integers only [0]. *)
Definition truthy_number (n : Z) : bool := negb (n =? 0).

(** [!s] is [true] exactly for the empty string. *)
Definition truthy_string (s : string) : bool :=
  match s with
  | EmptyString => false
  | String _ _ => true
  end.

(** The double nearest to an integer, ties to the even significand: an
    integer of magnitude below 2^53 is a double itself, a larger one is
    rounded to 53 significant bits. (Integers beyond the range of doubles,
    2^1024 and up, are no JavaScript numbers and are not looked at.) *)
Definition toDouble (z : Z) : Z :=
  let a := Z.abs z in
  let e := Z.log2 a - 52 in
  if e <=? 0 then z
  else
    let ulp := 2 ^ e in
    let q := a / ulp in
    let r := a mod ulp in
    let half := ulp / 2 in
    let q' := if r <? half then q
              else if half <? r then q + 1
              else if Z.even q then q else q + 1 in
    Z.sgn z * (q' * ulp).

(** [a - b] on two numbers that hold integers. *)
Definition jsSub (a b : Z) : Z := toDouble (a - b).

(** The same subtraction through the kernel's binary64 floats, for
    comparing [jsSub] with IEEE arithmetic: an integer of magnitude below
    2^63 as a float, the integer a float holds (if it holds one), and the
    difference of two such integers. *)
Definition floatOfInteger (z : Z) : PrimFloat.float :=
  if z <? 0 then PrimFloat.opp (PrimFloat.of_uint63 (Uint63.of_Z (- z)))
  else PrimFloat.of_uint63 (Uint63.of_Z z).

Definition integerOfFloat (f : PrimFloat.float) : option Z :=
  match FloatOps.Prim2SF f with
  | SpecFloat.S754_zero _ => Some 0
  | SpecFloat.S754_finite s m e =>
      let sign := if s then -1 else 1 in
      if 0 <=? e then Some (sign * (Z.pos m * 2 ^ e))
      else if Z.pos m mod 2 ^ (- e) =? 0 then Some (sign * (Z.pos m / 2 ^ (- e)))
      else None
  | _ => None
  end.

Definition floatSub (a b : Z) : option Z :=
  integerOfFloat (PrimFloat.sub (floatOfInteger a) (floatOfInteger b)).

(** An object reference: [Object.is] compares [ref_id], property reads go
    to [deref]. *)
Record Ref (A : Type) := mkRef { ref_id : positive; deref : A }.
Arguments mkRef {A} _ _.
Arguments ref_id {A} _.
Arguments deref {A} _.

(** What a [throw] can deliver to the [catch (error)] of the effect:
    [null]/[undefined] (reading [.message] from it raises a [TypeError]),
    or a value whose [message] property is [undefined]/[null] ([None]) or a
    string ([Some m], an [Error] object). *)
Inductive JsThrown :=
  | ThrownNullish
  | ThrownValue (message : option string).

(** ** Data model *)

(** [TimelineDropsChartData]; the datum type comes from the drawing
    module and stays a parameter. Dates are epoch milliseconds. *)
Record TimelineDropsChartData (Datum : Type) := mkChartData {
  selectedPeriod : string;
  startDate : Z;
  endDate : Z;
  maxDrops : Z;
  categoriesSorted : list string;
  log : list Datum
}.
Arguments mkChartData {Datum} _ _ _ _ _ _.
Arguments selectedPeriod {Datum} _.
Arguments startDate {Datum} _.
Arguments endDate {Datum} _.
Arguments maxDrops {Datum} _.
Arguments categoriesSorted {Datum} _.
Arguments log {Datum} _.

(** An entry of the category registry [playerDropCategories]. *)
Record CategoryMeta := mkCategoryMeta {
  label : string;
  color : string;
  border : string
}.

(** The inputs of one evaluation of the component: the three props and
    the value of the [useIsDarkMode] hook. The type of the prop makes
    [chartData] an object, the effect nevertheless guards [!chartData]. *)
Record Inputs (Datum : Type) := mkInputs {
  chartData : option (Ref (TimelineDropsChartData Datum));
  width : Z;
  height : Z;
  isDarkMode : bool
}.
Arguments mkInputs {Datum} _ _ _ _.
Arguments chartData {Datum} _.
Arguments width {Datum} _.
Arguments height {Datum} _.
Arguments isDarkMode {Datum} _.

(** The [margins] constant of the component. *)
Record Margins := mkMargins {
  mTop : Z;
  mRight : Z;
  mBottom : Z;
  mLeft : Z;
  mAxis : Z
}.

Definition margins : Margins :=
  {| mTop := 8; mRight := 8; mBottom := 24; mLeft := 42; mAxis := 1 |}.

(** The two [useState] cells. *)
Record RenderState := mkState {
  renderError : string;
  errorRetry : nat
}.

Definition initialState : RenderState :=
  {| renderError := ""; errorRetry := 0 |}.

#[global] Instance RenderState_eq_dec : EqDecision RenderState.
Proof. solve_decision. Defined.

(** The DOM nodes the three refs can point to. *)
Inductive Element := LegendDiv | SvgNode | CanvasNode.

Record Refs := mkRefs {
  legendRef : option Element;
  svgRef : option Element;
  canvasRef : option Element
}.

Definition noRefs : Refs :=
  {| legendRef := None; svgRef := None; canvasRef := None |}.

(** ** The drawing routine *)

(** The object handed to [drawDropsTimeline]. Its [setRenderError] field is
    the state setter itself: calls made through it show up as [reported]
    in the outcome (during the call) or as a [Reported] event (later). *)
Record DrawRequest (Datum : Type) := mkRequest {
  rq_legendRef : Element;
  rq_svgRef : Element;
  rq_canvasRef : Element;
  rq_size : Z * Z;
  rq_margins : Margins;
  rq_isDarkMode : bool;
  rq_data : Ref (TimelineDropsChartData Datum)
}.
Arguments mkRequest {Datum} _ _ _ _ _ _ _.
Arguments rq_legendRef {Datum} _.
Arguments rq_svgRef {Datum} _.
Arguments rq_canvasRef {Datum} _.
Arguments rq_size {Datum} _.
Arguments rq_margins {Datum} _.
Arguments rq_isDarkMode {Datum} _.
Arguments rq_data {Datum} _.

Inductive Completion :=
  | Returned
  | Threw (e : JsThrown).

(** What one call of the routine does, as far as the component can see:
    the messages it passed to [setRenderError] before it finished, and how
    it finished. *)
Record DrawOutcome := mkOutcome {
  reported : list string;
  completion : Completion
}.

(** The imported collaborators. [playerDropCategories] holds the entries
    the registry object has of its own; the object is an ordinary one, so
    a property read on it also finds what every object inherits (see
    [readCategory]). The routine is indexed by the number of calls made
    before, so that it may behave differently from one call to the
    next. *)
Class Collaborators (Datum : Type) := mkCollaborators {
  playerDropCategories : gmap string CategoryMeta;
  drawDropsTimeline : nat → DrawRequest Datum → DrawOutcome
}.

(** ** The rendered tree *)

(** One legend row: the [key], the swatch's two style colours, the text of
    the label span, and the value slot [<span data-category=... />], which
    is rendered without children. *)
Record LegendRow := mkRow {
  row_key : string;
  backgroundColor : string;
  borderColor : string;
  row_text : string;
  slot_category : string;
  slot_content : string
}.

(** The legend [div], the [svg] and the [canvas], with the attributes and
    style entries the component computes (offsets in pixels). *)
Record LegendProps := mkLegend {
  lg_zIndex : Z;
  lg_top : Z;
  lg_opacity : Z;
  lg_rows : list LegendRow
}.

Record SvgProps := mkSvg {
  svg_width : Z;
  svg_height : Z;
  svg_zIndex : Z;
  svg_top : Z;
  svg_left : Z
}.

Record CanvasProps := mkCanvas {
  cv_width : Z;
  cv_height : Z;
  cv_zIndex : Z;
  cv_top : Z;
  cv_left : Z
}.

(** What the component returns: [null], the error panel (its text and the
    caption of its button), or the fragment with the three surfaces. *)
Inductive View :=
  | VNull
  | VErrorPanel (text : string) (button : string)
  | VChart (legend : LegendProps) (svg : SvgProps) (canvas : CanvasProps).

(** ** ChartLabels *)

(** The names every ordinary object answers through [Object.prototype]. *)
Definition objectPrototypeNames : list string :=
  ["constructor"; "hasOwnProperty"; "isPrototypeOf"; "propertyIsEnumerable";
   "toLocaleString"; "toString"; "valueOf"; "__proto__";
   "__defineGetter__"; "__defineSetter__"; "__lookupGetter__";
   "__lookupSetter__"].

(** What a property read on the registry can give. *)
Inductive PropertyRead :=
  | OwnEntry (meta : CategoryMeta)
  | Inherited
  | Undefined.

Section Legend.
Context {Datum : Type} `{!Collaborators Datum}.

(** The value of [playerDropCategories[catName]]: an entry of the
    registry's own, else a property inherited from [Object.prototype] (a
    function, or the prototype itself for [__proto__]), else [undefined]. *)
Definition readCategory (catName : string) : PropertyRead :=
  match playerDropCategories !! catName with
  | Some meta => OwnEntry meta
  | None =>
      if decide (catName ∈ objectPrototypeNames) then Inherited else Undefined
  end.

(** The body of the [map] callback. Each of the three reads
    [playerDropCategories[catName].x] raises when the lookup is
    [undefined]. On an inherited value the reads of [color], [border] and
    [label] give [undefined]: no style value is set and the label renders
    no text, which leaves the two colours empty and the text at ":". *)
Definition labelRow (catName : string) : option LegendRow :=
  match readCategory catName with
  | OwnEntry meta =>
      Some {| row_key := catName;
              backgroundColor := color meta;
              borderColor := border meta;
              row_text := label meta +:+ ":";
              slot_category := catName;
              slot_content := "" |}
  | Inherited =>
      Some {| row_key := catName;
              backgroundColor := "";
              borderColor := "";
              row_text := ":";
              slot_category := catName;
              slot_content := "" |}
  | Undefined => None
  end.

(** [ChartLabels] on the contents of the array it is given. *)
Definition ChartLabels (categories : list string) : option (list LegendRow) :=
  let categoriesReversed := reverse categories in
  mapM labelRow categoriesReversed.
End Legend.

(** *** The same component over a store of arrays

    [slice] allocates, [reverse] writes in place; the store makes visible
    which array the write goes to. *)
Module ArrayStore.
Abbreviation store := (gmap positive (list string)).

(** [a.slice()]: a new array with the same elements. *)
Definition slice (h : store) (a : positive) : option (positive * store) :=
  xs ← h !! a;
  let b := fresh (dom h) in
  Some (b, <[b := xs]> h).

(** [a.reverse()]: reverses [a] itself and returns the same reference. *)
Definition reverseInPlace (h : store) (a : positive) : option (positive * store) :=
  xs ← h !! a;
  Some (a, <[a := reverse xs]> h).

(** [ChartLabels] given a reference to the [categories] array. [None] is
    a dangling reference; the inner option is the one of [labelRow]. *)
Definition ChartLabels_store {Datum : Type} `{!Collaborators Datum}
    (h : store) (categories : positive)
    : option (store * option (list LegendRow)) :=
  '(copy, h1) ← slice h categories;
  '(categoriesReversed, h2) ← reverseInPlace h1 copy;
  xs ← h2 !! categoriesReversed;
  Some (h2, mapM labelRow xs).
End ArrayStore.

(** ** TimelineDropsChart *)

(** A queued call of a state setter. *)
Inductive Update :=
  | SetRenderError (message : string)
  | SetErrorRetry (n : nat)
  | UpdateErrorRetry (f : nat → nat).

Definition applyUpdate (st : RenderState) (u : Update) : RenderState :=
  match u with
  | SetRenderError m => {| renderError := m; errorRetry := errorRetry st |}
  | SetErrorRetry n => {| renderError := renderError st; errorRetry := n |}
  | UpdateErrorRetry f =>
      {| renderError := renderError st; errorRetry := f (errorRetry st) |}
  end.

(** React applies the queued calls in the order they were made. *)
Definition applyUpdates (us : list Update) (st : RenderState) : RenderState :=
  foldl applyUpdate st us.

(** The dependency list of the effect. The three ref objects in it are
    created once by [useRef] and never differ from one render to the
    next, so they are left out. *)
Record Deps := mkDeps {
  dep_chartData : option positive;
  dep_width : Z;
  dep_height : Z;
  dep_isDarkMode : bool;
  dep_renderError : string
}.

#[global] Instance Deps_eq_dec : EqDecision Deps.
Proof. solve_decision. Defined.

(** What running the effect body does: the setter calls it queues, the
    requests it sends to the drawing routine, and whether an exception
    leaves it. *)
Record EffectRun (Datum : Type) := mkEffectRun {
  updates : list Update;
  drawn : list (DrawRequest Datum);
  raised : bool
}.
Arguments mkEffectRun {Datum} _ _ _.
Arguments updates {Datum} _.
Arguments drawn {Datum} _.
Arguments raised {Datum} _.

(** The caption of the retry button:
    [Retry{errorRetry ? ` (${errorRetry})` : ''}]. *)
Definition retryCaption (errorRetry : nat) : string :=
  "Retry" +:+ (if decide (errorRetry = 0%nat) then ""
               else " (" +:+ pretty errorRetry +:+ ")").

Section Component.
Context {Datum : Type} `{!Collaborators Datum}.

Definition depsOf (inp : Inputs Datum) (st : RenderState) : Deps :=
  {| dep_chartData := ref_id <$> chartData inp;
     dep_width := width inp;
     dep_height := height inp;
     dep_isDarkMode := isDarkMode inp;
     dep_renderError := renderError st |}.

(** The return value of the component function; [None] when rendering
    raises ([chartData.categoriesSorted] on a missing [chartData], or
    [ChartLabels] on a category whose registry read is [undefined]). *)
Definition render (inp : Inputs Datum) (st : RenderState) : option View :=
  if negb (truthy_number (width inp)) || negb (truthy_number (height inp))
  then Some VNull
  else if truthy_string (renderError st)
  then Some (VErrorPanel ("Render Error: " +:+ renderError st)
                         (retryCaption (errorRetry st)))
  else
    data ← chartData inp;
    rows ← ChartLabels (categoriesSorted (deref data));
    Some (VChart
            {| lg_zIndex := 2; lg_top := 12; lg_opacity := 0; lg_rows := rows |}
            {| svg_width := width inp; svg_height := height inp;
               svg_zIndex := 1; svg_top := 0; svg_left := 0 |}
            {| cv_width := jsSub (jsSub (width inp) (mLeft margins)) (mRight margins);
               cv_height := jsSub (jsSub (height inp) (mTop margins)) (mBottom margins);
               cv_zIndex := 0; cv_top := mTop margins; cv_left := mLeft margins |}).

(** The refs after the commit of a view: attached exactly when the view
    contains the three elements. *)
Definition commitRefs (v : View) : Refs :=
  match v with
  | VChart _ _ _ =>
      {| legendRef := Some LegendDiv; svgRef := Some SvgNode;
         canvasRef := Some CanvasNode |}
  | _ => noRefs
  end.

Definition idle : EffectRun Datum :=
  {| updates := []; drawn := []; raised := false |}.

(** The body of the [useEffect] callback; [calls] is the number of calls
    of the drawing routine made so far. *)
Definition effect (inp : Inputs Datum) (refs : Refs) (calls : nat)
    : EffectRun Datum :=
  match chartData inp, legendRef refs, svgRef refs, canvasRef refs with
  | Some data, Some legend, Some svg, Some canvas =>
      if negb (truthy_number (width inp)) || negb (truthy_number (height inp))
      then idle
      else if decide (length (log (deref data)) = 0%nat) then idle
      else
        let request :=
          {| rq_legendRef := legend; rq_svgRef := svg; rq_canvasRef := canvas;
             rq_size := (width inp, height inp); rq_margins := margins;
             rq_isDarkMode := isDarkMode inp; rq_data := data |} in
        let outcome := drawDropsTimeline calls request in
        let during := SetRenderError <$> reported outcome in
        match completion outcome with
        | Returned =>
            {| updates := during ++ [SetErrorRetry 0; SetRenderError ""];
               drawn := [request]; raised := false |}
        | Threw (ThrownValue message) =>
            {| updates := during ++
                 [SetRenderError (default "Unknown error." message)];
               drawn := [request]; raised := false |}
        | Threw ThrownNullish =>
            {| updates := during; drawn := [request]; raised := true |}
        end
  | _, _, _, _ => idle
  end.
End Component.

(** ** The component instance under React

    One mounted instance: the inputs of its last render, the two state
    cells, the refs, the committed view, the dependency values of the last
    render, the calls of the drawing routine made so far (oldest first),
    and whether an exception has escaped from it, after which React removes
    it from the tree. *)
Record Mounted (Datum : Type) := mkMounted {
  inputs : option (Inputs Datum);
  state : RenderState;
  refs : Refs;
  view : View;
  lastDeps : option Deps;
  draws : list (DrawRequest Datum);
  crashed : bool
}.
Arguments mkMounted {Datum} _ _ _ _ _ _ _.
Arguments inputs {Datum} _.
Arguments state {Datum} _.
Arguments refs {Datum} _.
Arguments view {Datum} _.
Arguments lastDeps {Datum} _.
Arguments draws {Datum} _.
Arguments crashed {Datum} _.

(** What can happen to an instance: the parent renders it with some
    inputs (the first time mounts it), the user presses the retry button,
    or the drawing routine calls the error reporter it was given after the
    draw call has finished. *)
Inductive Event (Datum : Type) :=
  | Rerender (inp : Inputs Datum)
  | Retry
  | Reported (message : string).
Arguments Rerender {Datum} _.
Arguments Retry {Datum}.
Arguments Reported {Datum} _.

(** React gives up after this many nested updates. *)
Definition NESTED_UPDATE_LIMIT : nat := 50.
#[global] Arguments NESTED_UPDATE_LIMIT : simpl never.

Section Lifecycle.
Context {Datum : Type} `{!Collaborators Datum}.

Definition initial : Mounted Datum :=
  {| inputs := None; state := initialState; refs := noRefs; view := VNull;
     lastDeps := None; draws := []; crashed := false |}.

Definition unmount (c : Mounted Datum) (extra : list (DrawRequest Datum))
    : Mounted Datum :=
  {| inputs := inputs c; state := state c; refs := noRefs; view := VNull;
     lastDeps := lastDeps c; draws := draws c ++ extra; crashed := true |}.

(** One pass: render, commit (refs and view), then the effect if a
    dependency differs from the previous render. *)
Definition pass (inp : Inputs Datum) (c : Mounted Datum) : Mounted Datum :=
  if crashed c then c
  else
    match render inp (state c) with
    | None => unmount c []
    | Some v =>
        let attached := commitRefs v in
        let deps := depsOf inp (state c) in
        if decide (lastDeps c = Some deps)
        then {| inputs := Some inp; state := state c; refs := attached;
                view := v; lastDeps := lastDeps c; draws := draws c;
                crashed := false |}
        else
          let run := effect inp attached (length (draws c)) in
          if raised run then unmount c (drawn run)
          else {| inputs := Some inp;
                  state := applyUpdates (updates run) (state c);
                  refs := attached; view := v; lastDeps := Some deps;
                  draws := draws c ++ drawn run; crashed := false |}
    end.

(** Passes repeat for as long as the effect changed the state. *)
Fixpoint rerender (limit : nat) (inp : Inputs Datum) (c : Mounted Datum)
    : Mounted Datum :=
  match limit with
  | O => c
  | S limit' =>
      let c' := pass inp c in
      if decide (state c' = state c) then c' else rerender limit' inp c'
  end.

Definition withState (c : Mounted Datum) (st : RenderState) : Mounted Datum :=
  {| inputs := inputs c; state := st; refs := refs c; view := view c;
     lastDeps := lastDeps c; draws := draws c; crashed := crashed c |}.

(** The [onClick] of the retry button. *)
Definition onRetryClick : list Update :=
  [UpdateErrorRetry (λ c, c + 1)%nat; SetRenderError ""].

Definition dispatch (ev : Event Datum) (c : Mounted Datum) : Mounted Datum :=
  match ev with
  | Rerender inp => rerender NESTED_UPDATE_LIMIT inp c
  | Retry =>
      match view c, inputs c with
      | VErrorPanel _ _, Some inp =>
          rerender NESTED_UPDATE_LIMIT inp
            (withState c (applyUpdates onRetryClick (state c)))
      | _, _ => c
      end
  | Reported message =>
      match draws c, inputs c with
      | _ :: _, Some inp =>
          if crashed c then c
          else rerender NESTED_UPDATE_LIMIT inp
                 (withState c (applyUpdates [SetRenderError message] (state c)))
      | _, _ => c
      end
  end.

Definition runEvents (evs : list (Event Datum)) (c : Mounted Datum)
    : Mounted Datum :=
  foldl (λ c ev, dispatch ev c) c evs.
End Lifecycle.

(** ** Sample collaborators and inputs *)

Definition sampleCategories : gmap string CategoryMeta :=
  <["afk" := {| label := "AFK"; color := "#9A9A9A"; border := "#7B7B7B" |}]>
  (<["ban" := {| label := "Ban"; color := "#D32F2F"; border := "#A52020" |}]>
  (<["idle" := {| label := "Idle"; color := "#FFB300"; border := "#C68A00" |}]> ∅)).

Definition sampleData : Ref (TimelineDropsChartData nat) :=
  mkRef 1%positive
    {| selectedPeriod := "day"; startDate := 0; endDate := 86400000;
       maxDrops := 7; categoriesSorted := ["afk"; "ban"; "idle"];
       log := [3%nat; 7%nat] |}.

Definition sampleInputs : Inputs nat :=
  {| chartData := Some sampleData; width := 800; height := 300;
     isDarkMode := true |}.

(** A routine that always paints. *)
Definition drawOk : Collaborators nat :=
  {| playerDropCategories := sampleCategories;
     drawDropsTimeline := λ _ _, {| reported := []; completion := Returned |} |}.

(** A routine that always raises [new Error(m)]. *)
Definition drawFails (m : string) : Collaborators nat :=
  {| playerDropCategories := sampleCategories;
     drawDropsTimeline := λ _ _,
       {| reported := []; completion := Threw (ThrownValue (Some m)) |} |}.

(** A routine that raises on its first call and paints afterwards. *)
Definition drawFailsOnce (m : string) : Collaborators nat :=
  {| playerDropCategories := sampleCategories;
     drawDropsTimeline := λ calls _,
       {| reported := [];
          completion := match calls with
                        | O => Threw (ThrownValue (Some m))
                        | S _ => Returned
                        end |} |}.

(** The sample inputs at a negative width. *)
Definition negativeWidthInputs : Inputs nat :=
  {| chartData := Some sampleData; width := -1; height := 300;
     isDarkMode := true |}.

(** The sample inputs once the viewport has collapsed. *)
Definition zeroWidthInputs : Inputs nat :=
  {| chartData := Some sampleData; width := 0; height := 300;
     isDarkMode := true |}.

(** Inputs whose model has an empty log. *)
Definition emptyLogInputs : Inputs nat :=
  {| chartData :=
       Some (mkRef 2%positive
         {| selectedPeriod := "day"; startDate := 0; endDate := 86400000;
            maxDrops := 0; categoriesSorted := ["afk"; "ban"; "idle"];
            log := [] |});
     width := 800; height := 300; isDarkMode := false |}.

(** A store holding the sample category array at address 5. *)
Definition sampleStore : gmap positive (list string) :=
  {[ 5%positive := ["afk"; "ban"; "idle"] ]}.

(** A routine that passes a message to the error reporter and then
    returns normally. *)
Definition drawReportsAndReturns (m : string) : Collaborators nat :=
  {| playerDropCategories := sampleCategories;
     drawDropsTimeline := λ _ _, {| reported := [m]; completion := Returned |} |}.

(** A routine that raises [null]. *)
Definition drawThrowsNull : Collaborators nat :=
  {| playerDropCategories := sampleCategories;
     drawDropsTimeline := λ _ _,
       {| reported := []; completion := Threw ThrownNullish |} |}.

(** Inputs whose category list names "vip", which the sample registry
    does not have. *)
Definition unknownCategoryInputs : Inputs nat :=
  {| chartData :=
       Some (mkRef 3%positive
         {| selectedPeriod := "day"; startDate := 0; endDate := 86400000;
            maxDrops := 7; categoriesSorted := ["afk"; "vip"];
            log := [3%nat] |});
     width := 800; height := 300; isDarkMode := false |}.

(** Inputs without a model, as the guard [!chartData] of the effect
    allows for. *)
Definition missingDataInputs : Inputs nat :=
  {| chartData := None; width := 800; height := 300; isDarkMode := false |}.

(** A viewport narrower than the horizontal margins. *)
Definition narrowInputs : Inputs nat :=
  {| chartData := Some sampleData; width := 40; height := 300;
     isDarkMode := true |}.

(** The instance after a failed draw of the sample inputs whose parent
    has since passed a model with an empty log. *)
Definition failedThenEmptied : Mounted nat :=
  @runEvents nat (drawFails "X")
    [Rerender sampleInputs; Rerender emptyLogInputs] initial.

(** The sample inputs one pixel wider. *)
Definition widerInputs : Inputs nat :=
  {| chartData := Some sampleData; width := 801; height := 300;
     isDarkMode := true |}.


(** Inputs whose category list names "toString", which the sample
    registry does not have and every object inherits. *)
Definition inheritedNameInputs : Inputs nat :=
  {| chartData :=
       Some (mkRef 4%positive
         {| selectedPeriod := "day"; startDate := 0; endDate := 86400000;
            maxDrops := 7; categoriesSorted := ["afk"; "toString"];
            log := [3%nat] |});
     width := 800; height := 300; isDarkMode := false |}.

(** A routine that paints on its first call and raises afterwards. *)
Definition drawFailsLater (m : string) : Collaborators nat :=
  {| playerDropCategories := sampleCategories;
     drawDropsTimeline := λ calls _,
       {| reported := [];
          completion := match calls with
                        | O => Returned
                        | S _ => Threw (ThrownValue (Some m))
                        end |} |}.

(** ** Derived notions used in the statements *)

(** The request the effect assembles once the three refs are attached. *)
Definition requestOf {Datum : Type} (inp : Inputs Datum)
    (data : Ref (TimelineDropsChartData Datum)) : DrawRequest Datum :=
  {| rq_legendRef := LegendDiv; rq_svgRef := SvgNode; rq_canvasRef := CanvasNode;
     rq_size := (width inp, height inp); rq_margins := margins;
     rq_isDarkMode := isDarkMode inp; rq_data := data |}.

(** The state the queued setter calls of one draw attempt lead to. *)
Definition stateAfterDraw (st : RenderState) (o : DrawOutcome) : RenderState :=
  match completion o with
  | Returned => initialState
  | Threw (ThrownValue message) =>
      {| renderError := default "Unknown error." message;
         errorRetry := errorRetry st |}
  | Threw ThrownNullish => st
  end.

(** A legend row as it should be for the category in its key: the colour,
    border and label of the registry entry, and an empty slot addressed by
    the category. *)
Definition rowFor {Datum : Type} `{!Collaborators Datum} (r : LegendRow) : Prop :=
  ∃ meta, playerDropCategories !! row_key r = Some meta ∧
    backgroundColor r = color meta ∧ borderColor r = border meta ∧
    row_text r = label meta +:+ ":" ∧
    slot_category r = row_key r ∧ slot_content r = "".

(** Inputs whose model has no bucket. *)
Definition emptyLog {Datum : Type} (inp : Inputs Datum) : Prop :=
  ∃ data, chartData inp = Some data ∧ log (deref data) = [].

(** The events that come from the parent or the user while the model has
    no bucket. *)
Definition emptyLogEvent {Datum : Type} (ev : Event Datum) : Prop :=
  match ev with
  | Rerender inp => emptyLog inp
  | Retry => True
  | Reported _ => False
  end.

(** A call that ends in the error panel: the routine raises a value whose
    message, or the fallback for a missing message, is not empty. *)
Definition failsVisibly (o : DrawOutcome) : Prop :=
  ∃ message, completion o = Threw (ThrownValue message) ∧
    default "Unknown error." message ≠ "".

(** The tuple (data, size, theme) of [inp] is not that of [prev]: the
    model is another object, or the width, the height or the theme
    differs. *)
Definition tupleDiffers {Datum : Type} (prev inp : Inputs Datum) : Prop :=
  ref_id <$> chartData inp ≠ ref_id <$> chartData prev ∨
  width inp ≠ width prev ∨ height inp ≠ height prev ∨
  isDarkMode inp ≠ isDarkMode prev.

(** The events that leave a set error in place: any render, and a late
    report of a message that is not empty; not the retry click, and not a
    late report of the empty message. *)
Definition keepsError {Datum : Type} (ev : Event Datum) : Prop :=
  match ev with
  | Rerender _ => True
  | Retry => False
  | Reported message => message ≠ ""
  end.

(** An instance at rest under inputs [inp]: mounted, showing what [render]
    returns for its state, with the dependency values of that render. *)
Definition Settled {Datum : Type} `{!Collaborators Datum}
    (inp : Inputs Datum) (c : Mounted Datum) : Prop :=
  crashed c = false ∧ inputs c = Some inp ∧
  render inp (state c) = Some (view c) ∧
  refs c = commitRefs (view c) ∧
  lastDeps c = Some (depsOf inp (state c)).

(** * Properties *)

Section Numbers.

Lemma toDouble_small z : Z.abs z < 2 ^ 53 → toDouble z = z.
Proof.
  intros Hz. unfold toDouble.
  destruct (Z.leb_spec (Z.log2 (Z.abs z) - 52) 0) as [|He]; [done|].
  exfalso.
  assert (0 < Z.abs z) as Hpos.
  { destruct (decide (Z.abs z = 0)) as [E|]; [|lia]. rewrite E in He. simpl in He. lia. }
  pose proof (Z.log2_spec _ Hpos) as [Hlo _].
  assert (2 ^ 53 ≤ 2 ^ Z.log2 (Z.abs z)) by (apply Z.pow_le_mono_r; lia).
  lia.
Qed.

Lemma toDouble_opp z : toDouble (- z) = - toDouble z.
Proof.
  unfold toDouble. rewrite Z.abs_opp, Z.sgn_opp.
  destruct (_ <=? 0); [done|]. cbv zeta. lia.
Qed.

(** Rounding never takes a number of 2^53 or more below 2^53. *)
Lemma toDouble_large z : 2 ^ 53 ≤ z → 2 ^ 53 ≤ toDouble z.
Proof.
  intros Hz. unfold toDouble.
  assert (0 < z) as Hpos by lia.
  rewrite (Z.abs_eq z) by lia. rewrite (Z.sgn_pos z) by lia.
  pose proof (Z.log2_spec _ Hpos) as [Hlo _].
  assert (53 ≤ Z.log2 z) as HL.
  { change 53 with (Z.log2 (2 ^ 53)). by apply Z.log2_le_mono. }
  destruct (Z.leb_spec (Z.log2 z - 52) 0) as [|He]; [lia|].
  cbv zeta. set (e := Z.log2 z - 52) in *.
  assert (0 < 2 ^ e) as Hulp by (apply Z.pow_pos_nonneg; lia).
  assert (2 ≤ 2 ^ e) as Hulp2.
  { change 2 with (2 ^ 1) at 1. apply Z.pow_le_mono_r; lia. }
  assert (2 ^ 52 ≤ z / 2 ^ e) as Hq.
  { apply Z.div_le_lower_bound; [done|].
    replace (Z.log2 z) with (e + 52) in Hlo by (unfold e; lia).
    rewrite Z.pow_add_r in Hlo by lia. lia. }
  assert (2 ^ 52 = 4503599627370496) as E52 by done.
  assert (2 ^ 53 = 9007199254740992) as E53 by done.
  rewrite E52 in Hq. rewrite E53.
  destruct (_ <? _); [nia|]. destruct (_ <? _); [nia|]. destruct (Z.even _); nia.
Qed.

(** Rounding does not move a number across a small one. *)
Lemma toDouble_lt_iff k z : Z.abs k < 2 ^ 53 → k < toDouble z ↔ k < z.
Proof.
  intros Hk.
  destruct (decide (Z.abs z < 2 ^ 53)) as [Hs|Hs].
  { by rewrite toDouble_small. }
  destruct (decide (0 ≤ z)) as [Hz|Hz].
  - pose proof (toDouble_large z). lia.
  - pose proof (toDouble_large (- z)) as Hl. rewrite toDouble_opp in Hl. lia.
Qed.


(** The sign of the twice reduced size is that of the exact difference. *)
Lemma jsSub_twice_pos w a b :
  0 ≤ a → 0 ≤ b → a + b ≤ 50 →
  0 < jsSub (jsSub w a) b ↔ a + b < w.
Proof.
  intros Ha Hb Hab. unfold jsSub.
  rewrite (toDouble_lt_iff 0) by (simpl; lia).
  assert (0 < toDouble (w - a) - b ↔ b < toDouble (w - a)) as -> by lia.
  rewrite (toDouble_lt_iff b) by lia. lia.
Qed.
End Numbers.

Section Basics.
Context {Datum : Type} `{!Collaborators Datum}.
Implicit Types (inp : Inputs Datum) (c : Mounted Datum) (st : RenderState).

Lemma truthy_number_true n : truthy_number n = true ↔ n ≠ 0.
Proof. unfold truthy_number. destruct (Z.eqb_spec n 0); simpl; split; congruence. Qed.

Lemma truthy_number_false n : truthy_number n = false ↔ n = 0.
Proof. unfold truthy_number. destruct (Z.eqb_spec n 0); simpl; split; congruence. Qed.

Lemma truthy_string_true s : truthy_string s = true ↔ s ≠ "".
Proof. destruct s; simpl; split; congruence. Qed.

Lemma truthy_string_false s : truthy_string s = false ↔ s = "".
Proof. destruct s; simpl; split; congruence. Qed.

(** *** Queued setter calls *)

Lemma applyUpdates_app us vs st :
  applyUpdates (us ++ vs) st = applyUpdates vs (applyUpdates us st).
Proof. unfold applyUpdates. apply foldl_app. Qed.

Lemma applyUpdates_reported_retry ms st :
  errorRetry (applyUpdates (SetRenderError <$> ms) st) = errorRetry st.
Proof.
  revert st. induction ms as [|m ms IH]; intros st; [done|].
  cbn. unfold applyUpdates in IH. by rewrite IH.
Qed.

Lemma applyUpdates_success ms st :
  applyUpdates ((SetRenderError <$> ms) ++ [SetErrorRetry 0; SetRenderError ""]) st
  = initialState.
Proof. by rewrite applyUpdates_app. Qed.

Lemma applyUpdates_caught ms m st :
  applyUpdates ((SetRenderError <$> ms) ++ [SetRenderError m]) st
  = {| renderError := m; errorRetry := errorRetry st |}.
Proof.
  rewrite applyUpdates_app. cbn. by rewrite applyUpdates_reported_retry.
Qed.

(** *** The effect *)

Lemma effect_noRefs inp calls : effect inp noRefs calls = idle.
Proof. unfold effect. by destruct (chartData inp). Qed.

(** The effect after the commit of a view either does nothing or sends
    exactly the request [requestOf]. *)
Lemma effect_after_commit inp st v calls :
  render inp st = Some v →
  effect inp (commitRefs v) calls = idle ∨
  ∃ data, chartData inp = Some data ∧ renderError st = "" ∧
    width inp ≠ 0 ∧ height inp ≠ 0 ∧ log (deref data) ≠ [] ∧
    (∃ l s cv, v = VChart l s cv) ∧
    let o := drawDropsTimeline calls (requestOf inp data) in
    drawn (effect inp (commitRefs v) calls) = [requestOf inp data] ∧
    (raised (effect inp (commitRefs v) calls) = true ↔
       completion o = Threw ThrownNullish) ∧
    (completion o ≠ Threw ThrownNullish →
       applyUpdates (updates (effect inp (commitRefs v) calls)) st
       = stateAfterDraw st o).
Proof.
  unfold render. intros Hr.
  destruct (truthy_number (width inp)) eqn:Hw; simpl in Hr;
    [|injection Hr as <-; left; apply effect_noRefs].
  destruct (truthy_number (height inp)) eqn:Hh; simpl in Hr;
    [|injection Hr as <-; left; apply effect_noRefs].
  destruct (truthy_string (renderError st)) eqn:He;
    [injection Hr as <-; left; apply effect_noRefs|].
  destruct (chartData inp) as [data|] eqn:Hd; [|done]. simpl in Hr.
  destruct (ChartLabels _) as [rows|]; [|done]. injection Hr as <-.
  unfold effect. rewrite Hd, Hw, Hh. simpl.
  destruct (decide (length (log (deref data)) = 0%nat)) as [|Hlog]; [by left|].
  right. exists data. apply truthy_string_false in He.
  apply truthy_number_true in Hw, Hh.
  split_and!; try done; [by intros E; rewrite E in Hlog | by eauto | ..];
    fold (requestOf inp data);
    destruct (drawDropsTimeline calls (requestOf inp data)) as [ms [|[|m]]];
    unfold stateAfterDraw; simpl; try done.
  - intros _. apply applyUpdates_success.
  - intros _. apply applyUpdates_caught.
Qed.

(** The effect with the three refs attached and inputs that pass its
    guards always calls the drawing routine. *)
Lemma effect_attached inp data calls l s cv :
  chartData inp = Some data → width inp ≠ 0 → height inp ≠ 0 →
  log (deref data) ≠ [] →
  effect inp (commitRefs (VChart l s cv)) calls ≠ idle.
Proof.
  intros Hd Hw Hh Hlog. unfold effect. simpl. rewrite Hd.
  apply truthy_number_true in Hw, Hh. rewrite Hw, Hh. simpl.
  rewrite decide_False by (by destruct (log (deref data))).
  by destruct (completion _) as [|[|m]].
Qed.

(** *** The three branches of render *)

Lemma render_null inp st :
  width inp = 0 ∨ height inp = 0 → render inp st = Some VNull.
Proof.
  unfold render. intros [H0|H0]; apply truthy_number_false in H0; rewrite H0;
    [done|by rewrite orb_true_r].
Qed.

Lemma render_error inp st :
  width inp ≠ 0 → height inp ≠ 0 → renderError st ≠ "" →
  render inp st = Some (VErrorPanel ("Render Error: " +:+ renderError st)
                                    (retryCaption (errorRetry st))).
Proof.
  unfold render. intros Hw Hh He.
  apply truthy_number_true in Hw, Hh. apply truthy_string_true in He.
  by rewrite Hw, Hh, He.
Qed.

Lemma render_chart inp st data rows :
  width inp ≠ 0 → height inp ≠ 0 → renderError st = "" →
  chartData inp = Some data →
  ChartLabels (categoriesSorted (deref data)) = Some rows →
  render inp st =
    Some (VChart
      {| lg_zIndex := 2; lg_top := 12; lg_opacity := 0; lg_rows := rows |}
      {| svg_width := width inp; svg_height := height inp;
         svg_zIndex := 1; svg_top := 0; svg_left := 0 |}
      {| cv_width := jsSub (jsSub (width inp) (mLeft margins)) (mRight margins);
         cv_height := jsSub (jsSub (height inp) (mTop margins)) (mBottom margins);
         cv_zIndex := 0; cv_top := mTop margins; cv_left := mLeft margins |}).
Proof.
  unfold render. intros Hw Hh He Hd HL.
  apply truthy_number_true in Hw, Hh.
  rewrite Hw, Hh, He, Hd. simpl. by rewrite HL.
Qed.

Lemma render_chart_inv inp st l s cv :
  render inp st = Some (VChart l s cv) →
  width inp ≠ 0 ∧ height inp ≠ 0 ∧ renderError st = "" ∧
  ∃ data rows, chartData inp = Some data ∧
    ChartLabels (categoriesSorted (deref data)) = Some rows ∧
    render inp st =
      Some (VChart
        {| lg_zIndex := 2; lg_top := 12; lg_opacity := 0; lg_rows := rows |}
        {| svg_width := width inp; svg_height := height inp;
           svg_zIndex := 1; svg_top := 0; svg_left := 0 |}
        {| cv_width := jsSub (jsSub (width inp) (mLeft margins)) (mRight margins);
           cv_height := jsSub (jsSub (height inp) (mTop margins)) (mBottom margins);
           cv_zIndex := 0; cv_top := mTop margins; cv_left := mLeft margins |}).
Proof.
  intros Hr.
  destruct (decide (width inp = 0)) as [Hw|Hw].
  { rewrite render_null in Hr by auto. done. }
  destruct (decide (height inp = 0)) as [Hh|Hh].
  { rewrite render_null in Hr by auto. done. }
  destruct (decide (renderError st = "")) as [He|He].
  2:{ rewrite render_error in Hr by done. done. }
  split_and!; try done.
  destruct (chartData inp) as [data|] eqn:Hd.
  2:{ unfold render in Hr. apply truthy_number_true in Hw, Hh.
      rewrite Hw, Hh, He, Hd in Hr. done. }
  destruct (ChartLabels (categoriesSorted (deref data))) as [rows|] eqn:HL.
  2:{ unfold render in Hr. apply truthy_number_true in Hw, Hh.
      rewrite Hw, Hh, He, Hd in Hr. simpl in Hr. by rewrite HL in Hr. }
  exists data, rows. split_and!; try done. by apply (render_chart _ _ data).
Qed.

(** With a viewport and no error, what is rendered is the chart. *)
Lemma render_clean inp st v :
  width inp ≠ 0 → height inp ≠ 0 → renderError st = "" →
  render inp st = Some v → ∃ l s cv, v = VChart l s cv.
Proof.
  unfold render. intros Hw Hh He.
  apply truthy_number_true in Hw, Hh. rewrite Hw, Hh, He. simpl.
  destruct (chartData inp) as [data|]; [|done]. simpl.
  destruct (ChartLabels _) as [rows|]; [|done]. intros [= <-]. eauto.
Qed.
End Basics.

Section Passes.
Context {Datum : Type} `{!Collaborators Datum}.
Implicit Types (inp : Inputs Datum) (c : Mounted Datum) (st : RenderState).

Lemma pass_crashed inp c : crashed c = true → pass inp c = c.
Proof. unfold pass. by intros ->. Qed.

Lemma pass_render_raises inp c :
  crashed c = false → render inp (state c) = None → pass inp c = unmount c [].
Proof. unfold pass. by intros -> ->. Qed.

Lemma rerender_render_raises n inp c :
  crashed c = false → render inp (state c) = None →
  rerender (S n) inp c = unmount c [].
Proof.
  intros Hc Hr. simpl. rewrite (pass_render_raises inp c Hc Hr).
  by rewrite decide_True.
Qed.

(** The three ways one pass can go for a mounted instance: rendering
    raises; nothing is drawn; or the drawing routine is called once. *)
Lemma pass_cases inp c :
  crashed c = false →
  (render inp (state c) = None ∧ pass inp c = unmount c []) ∨
  (∃ v, render inp (state c) = Some v ∧
     (lastDeps c = Some (depsOf inp (state c)) ∨
      effect inp (commitRefs v) (length (draws c)) = idle) ∧
     pass inp c =
       {| inputs := Some inp; state := state c; refs := commitRefs v;
          view := v; lastDeps := Some (depsOf inp (state c));
          draws := draws c; crashed := false |}) ∨
  (∃ data v, render inp (state c) = Some v ∧
     chartData inp = Some data ∧ renderError (state c) = "" ∧
     width inp ≠ 0 ∧ height inp ≠ 0 ∧ log (deref data) ≠ [] ∧
     lastDeps c ≠ Some (depsOf inp (state c)) ∧
     pass inp c =
       match completion (drawDropsTimeline (length (draws c)) (requestOf inp data)) with
       | Threw ThrownNullish => unmount c [requestOf inp data]
       | _ =>
         {| inputs := Some inp;
            state := stateAfterDraw (state c)
                       (drawDropsTimeline (length (draws c)) (requestOf inp data));
            refs := commitRefs v; view := v;
            lastDeps := Some (depsOf inp (state c));
            draws := draws c ++ [requestOf inp data]; crashed := false |}
       end).
Proof.
  intros Hc. unfold pass. rewrite Hc.
  destruct (render inp (state c)) as [v|] eqn:Hr; [|by left].
  right. destruct (decide (lastDeps c = Some (depsOf inp (state c)))) as [Hd|Hd].
  { left. exists v. rewrite Hd. eauto. }
  destruct (effect_after_commit inp (state c) v (length (draws c)) Hr)
    as [Hidle|(data & Hdata & He & Hw & Hh & Hlog & _ & Hdrawn & Hraised & Hupd)].
  { left. exists v. rewrite Hidle. simpl. rewrite app_nil_r. eauto. }
  right. exists data, v. split_and!; try done.
  cbv zeta in Hdrawn, Hraised, Hupd. rewrite Hdrawn.
  destruct (raised _) eqn:Hra.
  - by rewrite (proj1 Hraised eq_refl).
  - assert (completion (drawDropsTimeline (length (draws c)) (requestOf inp data))
            ≠ Threw ThrownNullish) as Hne.
    { intros E. by apply Hraised in E. }
    rewrite (Hupd Hne).
    by destruct (completion _) as [|[|m]].
Qed.

(** A pass that leaves the state as it was is not followed by another
    one that does anything. *)
Lemma pass_fixed inp c :
  state (pass inp c) = state c → pass inp (pass inp c) = pass inp c.
Proof.
  intros Hst. destruct (crashed c) eqn:Hc.
  { by rewrite !(pass_crashed inp c Hc). }
  assert (crashed (pass inp c) = true ∨
          ∃ v, render inp (state c) = Some v ∧ view (pass inp c) = v ∧
               refs (pass inp c) = commitRefs v ∧ inputs (pass inp c) = Some inp ∧
               crashed (pass inp c) = false ∧
               lastDeps (pass inp c) = Some (depsOf inp (state c))) as [Hx|Hx].
  { destruct (pass_cases inp c Hc)
      as [[_ ->]|[(v & Hr & _ & ->)|(data & v & Hr & _ & _ & _ & _ & _ & _ & ->)]].
    - by left.
    - right. by exists v.
    - destruct (completion _) as [|[|m]]; [right; by exists v|by left|right; by exists v]. }
  { by apply pass_crashed. }
  destruct Hx as (v & Hr & Hv & Hrefs & Hin & Hcr & Hld).
  destruct (pass inp c) as [i' st' r' v' ld' dr' cr'] eqn:Hp. simpl in *. subst.
  unfold pass. simpl. rewrite Hr. by rewrite decide_True.
Qed.

(** After a pass that changed the state, one more pass changes nothing
    further: the effect either is not run again (the error cell is as
    before) or finds the refs detached (the error panel is shown). *)
Lemma pass_pass inp c :
  state (pass inp (pass inp c)) = state (pass inp c) ∧
  draws (pass inp (pass inp c)) = draws (pass inp c) ∧
  crashed (pass inp (pass inp c)) = crashed (pass inp c).
Proof.
  destruct (crashed c) eqn:Hc.
  { by rewrite !(pass_crashed inp c Hc). }
  destruct (pass_cases inp c Hc)
    as [[_ Hp]|[(v & Hr & _ & Hp)|(data & v & Hr & Hdata & He & Hw & Hh & Hlog & Hld & Hp)]].
  - rewrite Hp. by rewrite pass_crashed.
  - rewrite pass_fixed; [done|]. by rewrite Hp.
  - destruct (drawDropsTimeline (length (draws c)) (requestOf inp data))
      as [ms [|[|m]]] eqn:Ho; simpl in Hp.
    + (* returned: the error cell is still empty *)
      rewrite Hp. unfold pass. simpl.
      replace (render inp (stateAfterDraw (state c) {| reported := ms; completion := Returned |}))
        with (Some v).
      2:{ rewrite <- Hr. unfold render, stateAfterDraw. simpl. by rewrite He. }
      rewrite decide_True; [done|].
      unfold depsOf, stateAfterDraw. simpl. by rewrite He.
    + rewrite Hp. by rewrite pass_crashed.
    + (* raised with a message *)
      destruct (decide (default "Unknown error." m = "")) as [Hm|Hm].
      * rewrite pass_fixed; [done|]. rewrite Hp. unfold stateAfterDraw. simpl.
        rewrite Hm, <- He. by destruct (state c).
      * rewrite Hp. unfold pass. simpl.
        unfold render, stateAfterDraw. simpl.
        apply truthy_number_true in Hw, Hh. rewrite Hw, Hh. simpl.
        apply truthy_string_true in Hm. rewrite Hm. simpl.
        rewrite effect_noRefs. case_decide; simpl; by rewrite ?app_nil_r.
Qed.

Lemma pass_pass_state inp c :
  state (pass inp (pass inp c)) = state (pass inp c).
Proof. apply pass_pass. Qed.

(** Two passes always suffice. *)
Lemma rerender_two n inp c :
  rerender (S (S n)) inp c = rerender 2 inp c.
Proof.
  simpl. case_decide; [done|].
  rewrite decide_True by apply pass_pass_state.
  destruct n; simpl; [by rewrite decide_True by apply pass_pass_state|].
  by rewrite decide_True by apply pass_pass_state.
Qed.

Lemma rerender_limit inp c :
  rerender NESTED_UPDATE_LIMIT inp c = rerender 2 inp c.
Proof. unfold NESTED_UPDATE_LIMIT. apply rerender_two. Qed.

Lemma rerender_fixed n inp c :
  pass inp (rerender (S (S n)) inp c) = rerender (S (S n)) inp c.
Proof.
  rewrite rerender_two. simpl. case_decide as Hs.
  - by apply pass_fixed.
  - rewrite decide_True by apply pass_pass_state.
    apply pass_fixed, pass_pass_state.
Qed.

Lemma rerender_idempotent n m inp c :
  rerender (S m) inp (rerender (S (S n)) inp c) = rerender (S (S n)) inp c.
Proof.
  pose proof (rerender_fixed n inp c) as Hf.
  remember (rerender (S (S n)) inp c) as r eqn:Er. clear Er.
  simpl. rewrite Hf. by rewrite decide_True.
Qed.
End Passes.

Section Settling.
Context {Datum : Type} `{!Collaborators Datum}.
Implicit Types (inp : Inputs Datum) (c : Mounted Datum) (st : RenderState).

Lemma pass_keeps_crashed inp c : crashed (pass inp c) = false → crashed c = false.
Proof.
  destruct (crashed c) eqn:Hc; [|done]. by rewrite (pass_crashed inp c Hc), Hc.
Qed.

Lemma pass_settled inp c :
  state (pass inp c) = state c → crashed (pass inp c) = false →
  Settled inp (pass inp c).
Proof.
  intros Hst Hcr. pose proof (pass_keeps_crashed _ _ Hcr) as Hc.
  destruct (pass_cases inp c Hc)
    as [[_ Hp]|[(v & Hr & _ & Hp)|(data & v & Hr & _ & _ & _ & _ & _ & _ & Hp)]].
  - by rewrite Hp in Hcr.
  - rewrite Hp. by repeat split.
  - revert Hst Hcr. rewrite Hp.
    destruct (completion _) as [|[|m]]; simpl; intros Hst Hcr; try done;
      (repeat split; simpl; by rewrite ?Hst).
Qed.

(** What [rerender] returns is at rest, unless the instance is gone. *)
Lemma rerender_settled n inp c :
  crashed (rerender (S (S n)) inp c) = false →
  Settled inp (rerender (S (S n)) inp c).
Proof.
  rewrite rerender_two. simpl. case_decide as Hs.
  - by apply pass_settled.
  - rewrite decide_True by apply pass_pass_state.
    apply pass_settled, pass_pass_state.
Qed.

(** [rerender] draws at most once, and only when the state before it has
    an empty error cell, the inputs pass the guards of the effect, and a
    dependency differs from the previous render. *)
Lemma rerender_cases n inp c :
  let c' := rerender (S (S n)) inp c in
  (draws c' = draws c ∧ state c' = state c ∧ crashed c' = crashed c ∨
   draws c' = draws c ∧ state c' = state c ∧ render inp (state c) = None) ∨
  ∃ data, crashed c = false ∧ chartData inp = Some data ∧
    renderError (state c) = "" ∧ width inp ≠ 0 ∧ height inp ≠ 0 ∧
    log (deref data) ≠ [] ∧ lastDeps c ≠ Some (depsOf inp (state c)) ∧
    is_Some (render inp (state c)) ∧
    draws c' = draws c ++ [requestOf inp data] ∧
    match completion (drawDropsTimeline (length (draws c)) (requestOf inp data)) with
    | Threw ThrownNullish => crashed c' = true
    | _ => crashed c' = false ∧
           state c' = stateAfterDraw (state c)
                        (drawDropsTimeline (length (draws c)) (requestOf inp data))
    end.
Proof.
  cbv zeta. rewrite rerender_two. simpl.
  destruct (pass_pass inp c) as (Hps & Hpd & Hpc).
  rewrite (decide_True (P := state (pass inp (pass inp c)) = state (pass inp c))) by done.
  destruct (crashed c) eqn:Hc.
  { left. left. rewrite !(pass_crashed inp c Hc). by rewrite decide_True. }
  destruct (pass_cases inp c Hc)
    as [[Hr Hp]|[(v & Hr & _ & Hp)|(data & v & Hr & Hdata & He & Hw & Hh & Hlog & Hld & Hp)]].
  - left. right. rewrite Hp. simpl. rewrite decide_True by done. simpl.
    by rewrite app_nil_r.
  - left. left. rewrite Hp. simpl. by rewrite decide_True.
  - right. exists data. split_and!; try done; try (by rewrite Hr).
    + replace (draws _) with (draws (pass inp c)) by (by case_decide).
      rewrite Hp. by destruct (completion _) as [|[|m]].
    + replace (crashed _) with (crashed (pass inp c)) by (by case_decide).
      replace (state (if _ is left _ then _ else _))
        with (state (pass inp c)) by (by case_decide).
      rewrite Hp. by destruct (completion _) as [|[|m]].
Qed.
End Settling.

(** ** The legend *)

Section LegendProperties.
Context {Datum : Type} `{!Collaborators Datum}.

Lemma labelRow_registered catName meta :
  playerDropCategories !! catName = Some meta →
  labelRow catName
  = Some {| row_key := catName; backgroundColor := color meta;
            borderColor := border meta; row_text := label meta +:+ ":";
            slot_category := catName; slot_content := "" |}.
Proof. unfold labelRow, readCategory. by intros ->. Qed.

Lemma labelRow_inherited catName :
  playerDropCategories !! catName = None → catName ∈ objectPrototypeNames →
  labelRow catName
  = Some {| row_key := catName; backgroundColor := ""; borderColor := "";
            row_text := ":"; slot_category := catName; slot_content := "" |}.
Proof. unfold labelRow, readCategory. intros -> Hin. by rewrite decide_True. Qed.

Lemma labelRow_None catName :
  labelRow catName = None ↔
  playerDropCategories !! catName = None ∧ catName ∉ objectPrototypeNames.
Proof.
  unfold labelRow, readCategory.
  destruct (playerDropCategories !! catName) as [meta|].
  { split; [done|by intros [? _]]. }
  case_decide; split; try done. by intros [_ ?].
Qed.

Lemma labelRow_is_Some catName :
  is_Some (labelRow catName) ↔
  is_Some (playerDropCategories !! catName) ∨ catName ∈ objectPrototypeNames.
Proof.
  rewrite <- not_eq_None_Some, labelRow_None.
  destruct (playerDropCategories !! catName) as [meta|].
  - split; [eauto|]. by intros _ [? _].
  - destruct (decide (catName ∈ objectPrototypeNames)) as [Hin|Hin].
    + split; [eauto|]. by intros _ [_ ?].
    + split; [intros Hn; by destruct Hn|]. intros [[? ?]|?]; done.
Qed.

Lemma labelRow_key catName r :
  labelRow catName = Some r → row_key r = catName ∧ slot_category r = catName.
Proof.
  unfold labelRow. by destruct (readCategory catName); intros [= <-].
Qed.

Lemma labelRows_keys (cats : list string) (rows : list LegendRow) :
  Forall2 (λ catName r, labelRow catName = Some r) cats rows →
  row_key <$> rows = cats ∧ slot_category <$> rows = cats.
Proof.
  induction 1 as [|catName r cats rows Hr _ [IHk IHs]]; [done|].
  apply labelRow_key in Hr as [Hk Hs].
  by rewrite !fmap_cons, IHk, IHs, Hk, Hs.
Qed.

Lemma labelRows_registered (cats : list string) (rows : list LegendRow) :
  Forall2 (λ catName r, labelRow catName = Some r) cats rows →
  (∀ catName, catName ∈ cats → is_Some (playerDropCategories !! catName)) →
  Forall rowFor rows.
Proof.
  induction 1 as [|catName r cats rows Hr _ IH]; intros Hreg; [done|].
  constructor.
  - destruct (Hreg catName) as [meta Hm]; [by left|].
    rewrite (labelRow_registered _ _ Hm) in Hr. injection Hr as <-.
    exists meta. by simpl.
  - apply IH. intros c Hc. apply Hreg. by right.
Qed.

(** The legend renders exactly when every listed category is answered by
    the registry object, through an entry or an inherited property. *)
Lemma ChartLabels_is_Some (categories : list string) :
  is_Some (ChartLabels categories) ↔
  Forall (λ catName, is_Some (playerDropCategories !! catName) ∨
                     catName ∈ objectPrototypeNames) categories.
Proof.
  unfold ChartLabels. rewrite mapM_is_Some, Forall_reverse.
  apply Forall_iff. intros catName. apply labelRow_is_Some.
Qed.

(** C7. Provided every listed category is registered, [ChartLabels]
    returns one row per category, in the reverse of the given order, each
    row with the colour, border and label of its category and an empty
    value slot addressed by the category identifier; for the empty list
    it returns no row. *)
Theorem ChartLabels_reversed_rows (categories : list string) :
  (∀ catName, catName ∈ categories →
     is_Some (playerDropCategories !! catName)) →
  ∃ rows, ChartLabels categories = Some rows ∧
    length rows = length categories ∧
    row_key <$> rows = reverse categories ∧
    Forall rowFor rows ∧
    (categories = [] → rows = []).
Proof.
  intros Hreg. unfold ChartLabels.
  destruct (mapM labelRow (reverse categories)) as [rows|] eqn:Hm.
  - exists rows. pose proof (length_mapM _ _ _ Hm) as Hlen.
    rewrite length_reverse in Hlen.
    apply mapM_Some in Hm.
    pose proof (labelRows_keys _ _ Hm) as [Hk _].
    assert (Forall rowFor rows) as Hf.
    { apply (labelRows_registered _ _ Hm). intros c Hc.
      by apply Hreg, elem_of_reverse. }
    split_and!; try done.
    intros ->. by destruct rows.
  - apply mapM_None, Exists_exists in Hm as (catName & Hin & Hnone).
    apply elem_of_reverse, Hreg in Hin as [meta Hmeta].
    apply labelRow_None in Hnone as [Hnone _]. congruence.
Qed.

(** C9, as the code has it. A listed category for which the read
    [playerDropCategories[catName]] is [undefined] (no entry, and not a
    name every object inherits) makes [ChartLabels] raise, and with it the
    render of the chart: no row list, and so no blank row, is produced,
    and the instance is removed. *)
Theorem ChartLabels_unknown_category_raises
    (categories : list string) (catName : string)
    (inp : Inputs Datum) (data : Ref (TimelineDropsChartData Datum))
    (st : RenderState) :
  catName ∈ categories →
  playerDropCategories !! catName = None →
  catName ∉ objectPrototypeNames →
  chartData inp = Some data →
  categoriesSorted (deref data) = categories →
  width inp ≠ 0 → height inp ≠ 0 → renderError st = "" →
  ChartLabels categories = None ∧
  render inp st = None ∧
  ∀ c, crashed c = false → state c = st →
    crashed (dispatch (Rerender inp) c) = true ∧
    view (dispatch (Rerender inp) c) = VNull.
Proof.
  intros Hin Hnone Hown Hdata Hcats Hw Hh He.
  assert (ChartLabels categories = None) as HL.
  { apply mapM_None, Exists_exists. exists catName.
    split; [by apply elem_of_reverse|by apply labelRow_None]. }
  assert (render inp st = None) as Hr.
  { unfold render. apply truthy_number_true in Hw, Hh. rewrite Hw, Hh, He, Hdata.
    simpl. by rewrite Hcats, HL. }
  split_and!; try done.
  intros c Hc <-. unfold dispatch, NESTED_UPDATE_LIMIT.
  by rewrite rerender_render_raises.
Qed.
End LegendProperties.

(** *** The caller's array *)

Section StoreProperties.
Context {Datum : Type} `{!Collaborators Datum}.
Import ArrayStore.

(** C10. Run on a store, [ChartLabels] returns what it returns on the
    contents of the array, and every array of the store before the call,
    the one it was given included, has the same contents afterwards: the
    reversal is written to the copy. *)
Theorem ChartLabels_store_frame (h : gmap positive (list string))
    (categories : positive) (cats : list string) :
  h !! categories = Some cats →
  ∃ h', ChartLabels_store h categories = Some (h', ChartLabels cats) ∧
    h' !! categories = Some cats ∧
    ∀ a xs, h !! a = Some xs → h' !! a = Some xs.
Proof.
  intros Ha. unfold ChartLabels_store, slice, reverseInPlace.
  rewrite Ha. simpl.
  set (b := fresh (dom h)).
  assert (h !! b = None) as Hb.
  { apply not_elem_of_dom. apply is_fresh. }
  rewrite lookup_insert_eq. simpl. rewrite lookup_insert_eq. simpl.
  eexists. split; [reflexivity|].
  assert (∀ a xs, h !! a = Some xs →
            <[b:=reverse cats]> (<[b:=cats]> h) !! a = Some xs) as Hframe.
  { intros a xs Hx. rewrite !lookup_insert_ne; [done|congruence..]. }
  split; [by apply Hframe|done].
Qed.
End StoreProperties.

(** ** The surfaces *)

Section Surfaces.
Context {Datum : Type} `{!Collaborators Datum}.

End Surfaces.

(** ** Draw attempts *)

Section Draws.
Context {Datum : Type} `{!Collaborators Datum}.
Implicit Types (inp : Inputs Datum) (c : Mounted Datum) (st : RenderState).

Lemma rerender_crashed n inp c : crashed c = true → rerender n inp c = c.
Proof.
  intros Hc. destruct n; [done|]. simpl.
  rewrite (pass_crashed inp c Hc). by rewrite decide_True.
Qed.

(** A pass over inputs that satisfy the guards, with an empty error cell
    and a changed dependency, calls the drawing routine. *)
Lemma pass_draw inp c data :
  crashed c = false → renderError (state c) = "" →
  chartData inp = Some data → log (deref data) ≠ [] →
  width inp ≠ 0 → height inp ≠ 0 →
  is_Some (ChartLabels (categoriesSorted (deref data))) →
  lastDeps c ≠ Some (depsOf inp (state c)) →
  ∃ v, render inp (state c) = Some v ∧
    pass inp c =
      match completion (drawDropsTimeline (length (draws c)) (requestOf inp data)) with
      | Threw ThrownNullish => unmount c [requestOf inp data]
      | _ =>
        {| inputs := Some inp;
           state := stateAfterDraw (state c)
                      (drawDropsTimeline (length (draws c)) (requestOf inp data));
           refs := commitRefs v; view := v;
           lastDeps := Some (depsOf inp (state c));
           draws := draws c ++ [requestOf inp data]; crashed := false |}
      end.
Proof.
  intros Hc He Hd Hlog Hw Hh [rows HL] Hld.
  pose proof (render_chart inp (state c) data rows Hw Hh He Hd HL) as Hr.
  destruct (pass_cases inp c Hc)
    as [[Hr' _]|[(v & Hr' & Hq & _)|(data' & v & Hr' & Hd' & _ & _ & _ & _ & _ & Hp)]].
  - congruence.
  - destruct Hq as [Hq|Hq]; [done|].
    rewrite Hr in Hr'. injection Hr' as <-.
    exfalso. by eapply (effect_attached inp data).
  - exists v. split; [done|]. by replace data with data' by congruence.
Qed.

Lemma rerender_draw n inp c data :
  crashed c = false → renderError (state c) = "" →
  chartData inp = Some data → log (deref data) ≠ [] →
  width inp ≠ 0 → height inp ≠ 0 →
  is_Some (ChartLabels (categoriesSorted (deref data))) →
  lastDeps c ≠ Some (depsOf inp (state c)) →
  let c' := rerender (S (S n)) inp c in
  draws c' = draws c ++ [requestOf inp data] ∧
  match completion (drawDropsTimeline (length (draws c)) (requestOf inp data)) with
  | Threw ThrownNullish => crashed c' = true
  | _ => crashed c' = false ∧
         state c' = stateAfterDraw (state c)
                      (drawDropsTimeline (length (draws c)) (requestOf inp data))
  end.
Proof.
  intros Hc He Hd Hlog Hw Hh HL Hld. cbv zeta.
  destruct (pass_draw inp c data Hc He Hd Hlog Hw Hh HL Hld) as (v & Hr & Hp).
  destruct (pass_pass inp c) as (Hps & Hpd & Hpc).
  rewrite rerender_two. simpl.
  rewrite (decide_True (P := state (pass inp (pass inp c)) = state (pass inp c))) by done.
  replace (draws _) with (draws (pass inp c)) by (by case_decide).
  replace (crashed _) with (crashed (pass inp c)) by (by case_decide).
  replace (state (if _ is left _ then _ else _))
    with (state (pass inp c)) by (by case_decide).
  rewrite Hp. by destruct (completion _) as [|[|m]].
Qed.

(** Nothing is drawn while the error cell is set, whatever the inputs. *)
Lemma rerender_error_quiet n inp c :
  renderError (state c) ≠ "" →
  draws (rerender (S (S n)) inp c) = draws c ∧
  state (rerender (S (S n)) inp c) = state c.
Proof.
  intros He.
  destruct (rerender_cases n inp c) as [[(? & ? & _)|(? & ? & _)]|(data & _ & _ & He' & _)];
    done.
Qed.

(** Nothing is drawn for a model without buckets. *)
Lemma rerender_empty_log n inp c data :
  chartData inp = Some data → log (deref data) = [] →
  draws (rerender (S (S n)) inp c) = draws c ∧
  state (rerender (S (S n)) inp c) = state c.
Proof.
  intros Hd Hlog.
  destruct (rerender_cases n inp c)
    as [[(? & ? & _)|(? & ? & _)]|(data' & _ & Hd' & _ & _ & _ & Hlog' & _)];
    try done.
  congruence.
Qed.

(** Nothing is drawn at a viewport without width or height. *)
Lemma rerender_zero_viewport n inp c :
  width inp = 0 ∨ height inp = 0 →
  draws (rerender (S (S n)) inp c) = draws c ∧
  state (rerender (S (S n)) inp c) = state c ∧
  crashed (rerender (S (S n)) inp c) = crashed c.
Proof.
  intros H0.
  destruct (rerender_cases n inp c)
    as [[?|(_ & _ & Hr)]|(data' & _ & _ & _ & Hw & Hh & _)]; try done.
  - by rewrite render_null in Hr.
  - by destruct H0.
Qed.
End Draws.

(** ** The guards of the effect *)

Section Guards.
Context {Datum : Type} `{!Collaborators Datum}.
Implicit Types (inp : Inputs Datum) (c : Mounted Datum) (st : RenderState).

(** C2, as the code has it. At a viewport whose width or height is zero,
    rendering a mounted instance calls the drawing routine not at all,
    leaves both state cells as they were (an unset error stays unset), and
    shows nothing. *)
Theorem zero_viewport_no_draw inp c :
  width inp = 0 ∨ height inp = 0 →
  crashed c = false →
  draws (dispatch (Rerender inp) c) = draws c ∧
  state (dispatch (Rerender inp) c) = state c ∧
  view (dispatch (Rerender inp) c) = VNull.
Proof.
  intros H0 Hc. unfold dispatch. rewrite rerender_limit.
  destruct (rerender_zero_viewport 0 inp c H0) as (Hd & Hs & Hcr).
  split_and!; try done.
  rewrite Hc in Hcr. apply rerender_settled in Hcr as (_ & _ & Hr & _).
  rewrite render_null in Hr by done. congruence.
Qed.

Lemma dispatch_emptyLog ev c :
  emptyLogEvent ev →
  crashed c = true ∨ (∃ inp, inputs c = Some inp ∧ emptyLog inp) →
  draws (dispatch ev c) = draws c ∧
  (renderError (state c) = "" → renderError (state (dispatch ev c)) = "") ∧
  (crashed (dispatch ev c) = true ∨
   ∃ inp, inputs (dispatch ev c) = Some inp ∧ emptyLog inp).
Proof.
  intros Hev HJ. destruct ev as [inp| |m]; [| |done]; unfold dispatch.
  - rewrite rerender_limit. destruct Hev as (data & Hd & Hlog).
    destruct (rerender_empty_log 0 inp c data Hd Hlog) as [Hdr Hst].
    split_and!; [done|by rewrite Hst|].
    destruct (crashed (rerender 2 inp c)) eqn:Hcr; [by left|right].
    apply rerender_settled in Hcr as (_ & Hin & _). exists inp.
    split; [done|by exists data].
  - destruct (view c) as [|t b|]; try (by split_and!; auto).
    destruct (inputs c) as [inp|] eqn:Hin; [|split_and!; [done..|destruct HJ as [?|(? & ? & _)]; [by left|done]]].
    rewrite rerender_limit.
    set (c0 := withState c (applyUpdates onRetryClick (state c))).
    destruct HJ as [Hc|(inp' & [= <-] & data & Hd & Hlog)].
    + rewrite rerender_crashed by exact Hc. unfold c0. cbn. auto.
    + destruct (rerender_empty_log 0 inp c0 data Hd Hlog) as [Hdr Hst].
      split_and!; [done|by rewrite Hst|].
      destruct (crashed (rerender 2 inp c0)) eqn:Hcr; [by left|right].
      apply rerender_settled in Hcr as (_ & Hin' & _). exists inp.
      split; [done|by exists data].
Qed.

Lemma runEvents_emptyLog evs c :
  Forall emptyLogEvent evs →
  crashed c = true ∨ (∃ inp, inputs c = Some inp ∧ emptyLog inp) →
  draws (runEvents evs c) = draws c ∧
  (renderError (state c) = "" → renderError (state (runEvents evs c)) = "").
Proof.
  intros Hevs. revert c. induction Hevs as [|ev evs Hev _ IH]; intros c HJ; [done|].
  destruct (dispatch_emptyLog ev c Hev HJ) as (Hd & He & HJ').
  destruct (IH _ HJ') as [Hd' He'].
  change (runEvents (ev :: evs) c) with (runEvents evs (dispatch ev c)).
  split; [congruence|auto].
Qed.

(** C3. Rendering with a model whose log is empty calls the drawing
    routine not at all and leaves both state cells as they were; and from
    then on no re-render with such a model and no press of the retry
    button leads to a call or sets the error. *)
Theorem empty_log_no_draw inp data c evs :
  chartData inp = Some data → log (deref data) = [] →
  Forall emptyLogEvent evs →
  draws (dispatch (Rerender inp) c) = draws c ∧
  state (dispatch (Rerender inp) c) = state c ∧
  draws (runEvents evs (dispatch (Rerender inp) c)) = draws c ∧
  (renderError (state c) = "" →
   renderError (state (runEvents evs (dispatch (Rerender inp) c))) = "").
Proof.
  intros Hd Hlog Hevs.
  assert (emptyLogEvent (Rerender inp)) as Hev by (by exists data).
  assert (dispatch (Rerender inp) c = rerender 2 inp c) as Hdis
    by apply rerender_limit.
  destruct (rerender_empty_log 0 inp c data Hd Hlog) as [Hdr Hst].
  assert (crashed (dispatch (Rerender inp) c) = true ∨
          ∃ inp', inputs (dispatch (Rerender inp) c) = Some inp' ∧ emptyLog inp')
    as HJ.
  { rewrite Hdis. destruct (crashed (rerender 2 inp c)) eqn:Hcr; [by left|right].
    apply rerender_settled in Hcr as (_ & Hin & _). by exists inp. }
  destruct (runEvents_emptyLog evs _ Hevs HJ) as [Hd' He'].
  rewrite Hdis in *.
  split_and!; try done.
  - by rewrite Hd'.
  - intros He. apply He'. by rewrite Hst.
Qed.
End Guards.

(** ** One draw per change *)

Section Once.
Context {Datum : Type} `{!Collaborators Datum}.
Implicit Types (inp : Inputs Datum) (c : Mounted Datum) (st : RenderState).

Lemma dispatch_Rerender inp c :
  dispatch (Rerender inp) c = rerender 2 inp c.
Proof. apply rerender_limit. Qed.

Lemma dispatch_Rerender_again inp c :
  dispatch (Rerender inp) (dispatch (Rerender inp) c) = dispatch (Rerender inp) c.
Proof. rewrite !dispatch_Rerender. apply rerender_idempotent. Qed.

Lemma runEvents_cons ev evs c :
  runEvents (ev :: evs) c = runEvents evs (dispatch ev c).
Proof. done. Qed.

Lemma runEvents_same_inputs k inp c :
  runEvents (replicate k (Rerender inp)) (dispatch (Rerender inp) c)
  = dispatch (Rerender inp) c.
Proof.
  induction k as [|k IH]; [done|].
  cbn [replicate]. by rewrite runEvents_cons, dispatch_Rerender_again.
Qed.

Lemma runEvents_error_quiet inps c :
  renderError (state c) ≠ "" →
  draws (runEvents (Rerender <$> inps) c) = draws c ∧
  state (runEvents (Rerender <$> inps) c) = state c.
Proof.
  revert c. induction inps as [|inp inps IH]; intros c He; [done|].
  rewrite fmap_cons, runEvents_cons, dispatch_Rerender.
  destruct (rerender_error_quiet 0 inp c He) as [Hd Hs].
  destruct (IH (rerender 2 inp c)) as [Hd' Hs']; [by rewrite Hs|].
  split; congruence.
Qed.

Lemma dispatch_keepsError (ev : Event Datum) c :
  keepsError ev → renderError (state c) ≠ "" →
  draws (dispatch ev c) = draws c ∧ renderError (state (dispatch ev c)) ≠ "".
Proof.
  intros Hev He. destruct ev as [inp| |m]; [| done |]; unfold dispatch.
  - rewrite rerender_limit.
    destruct (rerender_error_quiet 0 inp c He) as [Hd Hs]. by rewrite Hd, Hs.
  - destruct (draws c) as [|d ds] eqn:Hdraws; [by rewrite Hdraws|].
    rewrite <- Hdraws.
    destruct (inputs c) as [inp|]; [|done].
    destruct (crashed c); [done|].
    rewrite rerender_limit.
    set (c1 := withState c (applyUpdates [SetRenderError m] (state c))).
    destruct (rerender_error_quiet 0 inp c1) as [Hd Hs]; [done|].
    by rewrite Hd, Hs.
Qed.

Lemma runEvents_keepsError (evs : list (Event Datum)) c :
  Forall keepsError evs → renderError (state c) ≠ "" →
  draws (runEvents evs c) = draws c.
Proof.
  intros Hevs. revert c. induction Hevs as [|ev evs Hev _ IH]; intros c He; [done|].
  rewrite runEvents_cons.
  destruct (dispatch_keepsError ev c Hev He) as [Hd He'].
  by rewrite IH, Hd.
Qed.

(** A render whose tuple differs from the one the instance was last
    rendered with finds a changed dependency. *)
Lemma tupleDiffers_deps c0 prev inp :
  crashed (dispatch (Rerender prev) c0) = false → tupleDiffers prev inp →
  lastDeps (dispatch (Rerender prev) c0)
  ≠ Some (depsOf inp (state (dispatch (Rerender prev) c0))).
Proof.
  rewrite dispatch_Rerender. intros Hc Hdiff.
  apply rerender_settled in Hc as (_ & _ & _ & _ & ->).
  intros [= Hd Hw Hh Ht]. unfold tupleDiffers in Hdiff.
  destruct Hdiff as [?|[?|[?|?]]]; congruence.
Qed.

(** C1, as the code has it. A mounted instance with no error showing is
    rendered with inputs that satisfy the guards of the effect, for the
    first time or with a tuple (data, size, theme) that differs from the
    one it was last rendered with. Then the drawing routine is called
    exactly once, with the request built from these inputs; rendering
    again with the same inputs, any number of times, changes nothing and
    so calls it no more; and if the call has left an error message, no
    render, whatever its inputs, and no later report of a non-empty
    message calls it again: only what clears the error does, the retry
    click or a report of the empty message. *)
Theorem draw_once_per_tuple c c0 prev inp data (evs : list (Event Datum)) :
  c = initial ∨ (c = dispatch (Rerender prev) c0 ∧ tupleDiffers prev inp) →
  crashed c = false → renderError (state c) = "" →
  chartData inp = Some data → log (deref data) ≠ [] →
  width inp ≠ 0 → height inp ≠ 0 →
  is_Some (ChartLabels (categoriesSorted (deref data))) →
  Forall keepsError evs →
  draws (dispatch (Rerender inp) c) = draws c ++ [requestOf inp data] ∧
  (∀ k, runEvents (replicate k (Rerender inp)) (dispatch (Rerender inp) c)
        = dispatch (Rerender inp) c) ∧
  (renderError (state (dispatch (Rerender inp) c)) = "" ∨
   draws (runEvents evs (dispatch (Rerender inp) c))
   = draws (dispatch (Rerender inp) c)).
Proof.
  intros Hfrom Hc He Hd Hlog Hw Hh HL Hevs.
  assert (lastDeps c ≠ Some (depsOf inp (state c))) as Hld.
  { destruct Hfrom as [->|[-> Hdiff]]; [done|]. by apply tupleDiffers_deps. }
  split_and!.
  - rewrite dispatch_Rerender.
    by destruct (rerender_draw 0 inp c data Hc He Hd Hlog Hw Hh HL Hld) as [-> _].
  - intros k. apply runEvents_same_inputs.
  - destruct (decide (renderError (state (dispatch (Rerender inp) c)) = ""))
      as [|He']; [by left|right].
    by apply runEvents_keepsError.
Qed.
End Once.

(** ** Failure, retry and recovery *)

Section Failure.
Context {Datum : Type} `{!Collaborators Datum}.
Implicit Types (inp : Inputs Datum) (c : Mounted Datum) (st : RenderState).

Lemma retryCaption_spec n :
  retryCaption n
  = if decide (n = 0%nat) then "Retry" else "Retry (" +:+ pretty n +:+ ")".
Proof. unfold retryCaption. by case_decide. Qed.

Lemma Settled_view_error inp c :
  Settled inp c → width inp ≠ 0 → height inp ≠ 0 →
  renderError (state c) ≠ "" →
  view c = VErrorPanel ("Render Error: " +:+ renderError (state c))
                       (retryCaption (errorRetry (state c))).
Proof.
  intros (_ & _ & Hr & _) Hw Hh He.
  rewrite render_error in Hr by done. congruence.
Qed.

(** One press of the retry button followed by a failing draw. *)
Lemma retry_then_failure inp data c :
  Settled inp c → chartData inp = Some data → log (deref data) ≠ [] →
  width inp ≠ 0 → height inp ≠ 0 →
  is_Some (ChartLabels (categoriesSorted (deref data))) →
  renderError (state c) ≠ "" →
  failsVisibly (drawDropsTimeline (length (draws c)) (requestOf inp data)) →
  Settled inp (dispatch Retry c) ∧
  renderError (state (dispatch Retry c)) ≠ "" ∧
  errorRetry (state (dispatch Retry c)) = S (errorRetry (state c)) ∧
  draws (dispatch Retry c) = draws c ++ [requestOf inp data].
Proof.
  intros HS Hd Hlog Hw Hh HL He (m & Ho & Hm).
  pose proof (Settled_view_error inp c HS Hw Hh He) as Hv.
  destruct HS as (Hc & Hin & Hr & Hrefs & Hld).
  unfold dispatch. rewrite Hv, Hin, rerender_limit.
  set (c0 := withState c (applyUpdates onRetryClick (state c))).
  assert (lastDeps c0 ≠ Some (depsOf inp (state c0))) as Hld0.
  { unfold c0. cbn. rewrite Hld. intros [= E]. done. }
  destruct (rerender_draw 0 inp c0 data Hc eq_refl Hd Hlog Hw Hh HL Hld0) as [Hdr Hk].
  change (draws c0) with (draws c) in *.
  rewrite Ho in Hk. destruct Hk as [Hcr Hst].
  split_and!; try done.
  - by apply rerender_settled.
  - rewrite Hst. unfold stateAfterDraw. by rewrite Ho.
  - rewrite Hst. unfold stateAfterDraw. rewrite Ho. cbn. lia.
Qed.

Lemma retries_then_failures inp data N : ∀ c,
  Settled inp c → chartData inp = Some data → log (deref data) ≠ [] →
  width inp ≠ 0 → height inp ≠ 0 →
  is_Some (ChartLabels (categoriesSorted (deref data))) →
  renderError (state c) ≠ "" →
  (∀ i, (i < N)%nat →
     failsVisibly (drawDropsTimeline (length (draws c) + i) (requestOf inp data))) →
  Settled inp (runEvents (replicate N Retry) c) ∧
  renderError (state (runEvents (replicate N Retry) c)) ≠ "" ∧
  errorRetry (state (runEvents (replicate N Retry) c))
  = (errorRetry (state c) + N)%nat.
Proof.
  induction N as [|N IH]; intros c HS Hd Hlog Hw Hh HL He Hfail.
  { cbn. split_and!; try done; lia. }
  cbn [replicate]. rewrite runEvents_cons.
  destruct (retry_then_failure inp data c HS Hd Hlog Hw Hh HL He) as (HS' & He' & Hn & Hdr).
  { specialize (Hfail 0%nat). rewrite Nat.add_0_r in Hfail. apply Hfail. lia. }
  destruct (IH (dispatch Retry c) HS' Hd Hlog Hw Hh HL He') as (HS'' & He'' & Hn'').
  { intros i Hi. rewrite Hdr, length_app. cbn.
    replace (length (draws c) + 1 + i)%nat with (length (draws c) + S i)%nat by lia.
    apply Hfail. lia. }
  split_and!; try done. rewrite Hn'', Hn. lia.
Qed.

(** C5. With a viewport, a state whose error cell holds a message X is
    rendered as the error panel with the text "Render Error: X" and a
    button that reads "Retry" when the retry count is 0 and "Retry (N)"
    when it is N > 0. An instance at rest after a first failure (count 0)
    shows "Retry"; after N presses of the button, each followed by a
    failing draw, the count is N and the panel shows the current message
    and "Retry (N)". *)
Theorem error_panel_retry_caption inp data c N st :
  width inp ≠ 0 → height inp ≠ 0 → renderError st ≠ "" →
  Settled inp c → chartData inp = Some data → log (deref data) ≠ [] →
  is_Some (ChartLabels (categoriesSorted (deref data))) →
  renderError (state c) ≠ "" → errorRetry (state c) = 0%nat →
  (∀ i, (i < N)%nat →
     failsVisibly (drawDropsTimeline (length (draws c) + i) (requestOf inp data))) →
  render inp st
  = Some (VErrorPanel ("Render Error: " +:+ renderError st)
            (if decide (errorRetry st = 0%nat) then "Retry"
             else "Retry (" +:+ pretty (errorRetry st) +:+ ")")) ∧
  view c = VErrorPanel ("Render Error: " +:+ renderError (state c)) "Retry" ∧
  errorRetry (state (runEvents (replicate N Retry) c)) = N ∧
  renderError (state (runEvents (replicate N Retry) c)) ≠ "" ∧
  view (runEvents (replicate N Retry) c)
  = VErrorPanel
      ("Render Error: " +:+ renderError (state (runEvents (replicate N Retry) c)))
      (if decide (N = 0%nat) then "Retry" else "Retry (" +:+ pretty N +:+ ")").
Proof.
  intros Hw Hh Hst HS Hd Hlog HL He H0 Hfail.
  destruct (retries_then_failures inp data N c HS Hd Hlog Hw Hh HL He Hfail)
    as (HS' & He' & Hn).
  rewrite H0 in Hn. simpl in Hn.
  split_and!; try done.
  - rewrite render_error by done. by rewrite retryCaption_spec.
  - rewrite (Settled_view_error inp c HS Hw Hh He). by rewrite H0.
  - rewrite (Settled_view_error inp _ HS' Hw Hh He').
    by rewrite retryCaption_spec, Hn.
Qed.
End Failure.

Section Recovery.
Context {Datum : Type} `{!Collaborators Datum}.
Implicit Types (inp : Inputs Datum) (c : Mounted Datum) (st : RenderState).

Lemma app_singleton_neq {A} (l : list A) (x : A) : l ≠ l ++ [x].
Proof.
  intros E. apply (f_equal length) in E. rewrite length_app in E. simpl in E. lia.
Qed.

(** What is known once [rerender] has made a call. *)
Lemma rerender_draw_inv inp c rq :
  draws (rerender 2 inp c) = draws c ++ [rq] →
  ∃ data, rq = requestOf inp data ∧ chartData inp = Some data ∧
    width inp ≠ 0 ∧ height inp ≠ 0 ∧ renderError (state c) = "" ∧
    match completion (drawDropsTimeline (length (draws c)) rq) with
    | Threw ThrownNullish => crashed (rerender 2 inp c) = true
    | _ => Settled inp (rerender 2 inp c) ∧
           state (rerender 2 inp c)
           = stateAfterDraw (state c) (drawDropsTimeline (length (draws c)) rq)
    end.
Proof.
  intros Hdr.
  destruct (rerender_cases 0 inp c)
    as [[(Hd & _)|(Hd & _)]|(data & _ & Hdata & He & Hw & Hh & _ & _ & _ & Hd & Hk)].
  - rewrite Hdr in Hd. symmetry in Hd. by apply app_singleton_neq in Hd.
  - rewrite Hdr in Hd. symmetry in Hd. by apply app_singleton_neq in Hd.
  - rewrite Hdr in Hd. apply app_inv_head in Hd. injection Hd as ->.
    exists data. split_and!; try done.
    destruct (completion _) as [|[|m]]; try done;
      destruct Hk as [Hcr Hst]; (split; [by apply rerender_settled|done]).
Qed.

(** What is known once an event has led to a call: the state the effect
    started from, and where the instance is afterwards. *)
Lemma dispatch_draw_inv ev c rq :
  draws (dispatch ev c) = draws c ++ [rq] →
  ∃ inp data st0, rq = requestOf inp data ∧
    width inp ≠ 0 ∧ height inp ≠ 0 ∧ renderError st0 = "" ∧
    (ev = Rerender inp ∧ st0 = state c ∨
     (ev = Retry ∧ ∃ t b, view c = VErrorPanel t b) ∧
       st0 = applyUpdates onRetryClick (state c) ∨
     ∃ m, ev = Reported m ∧ st0 = applyUpdates [SetRenderError m] (state c)) ∧
    match completion (drawDropsTimeline (length (draws c)) rq) with
    | Threw ThrownNullish => crashed (dispatch ev c) = true
    | _ => Settled inp (dispatch ev c) ∧
           state (dispatch ev c)
           = stateAfterDraw st0 (drawDropsTimeline (length (draws c)) rq)
    end.
Proof.
  destruct ev as [inp| |m]; unfold dispatch.
  - rewrite rerender_limit. intros Hdr.
    destruct (rerender_draw_inv inp c rq Hdr) as (data & -> & _ & Hw & Hh & He & Hk).
    exists inp, data, (state c). split_and!; auto.
  - destruct (view c) as [|t b|] eqn:Hv;
      try (by intros E%app_singleton_neq).
    destruct (inputs c) as [inp|]; [|by intros E%app_singleton_neq].
    rewrite rerender_limit.
    set (c0 := withState c (applyUpdates onRetryClick (state c))).
    intros Hdr.
    destruct (rerender_draw_inv inp c0 rq Hdr) as (data & -> & _ & Hw & Hh & He & Hk).
    exists inp, data, (state c0). split_and!; eauto 7.
  - destruct (draws c) as [|d ds] eqn:Hdraws;
      [simpl; intros E; by rewrite Hdraws in E|].
    rewrite <- Hdraws.
    destruct (inputs c) as [inp|]; [|by intros E%app_singleton_neq].
    destruct (crashed c); [by intros E%app_singleton_neq|].
    rewrite rerender_limit.
    set (c0 := withState c (applyUpdates [SetRenderError m] (state c))).
    intros Hdr.
    destruct (rerender_draw_inv inp c0 rq Hdr) as (data & -> & _ & Hw & Hh & He & Hk).
    exists inp, data, (state c0). split_and!; eauto 7.
Qed.

(** C6. An event leads to a call of the drawing routine that returns.
    Afterwards the error cell is empty and the retry count is zero, and
    the chart with its three surfaces is shown, not the error panel. If
    the next call then raises an error with a message X, the panel shows
    "Render Error: X" and the button reads "Retry", without a count. *)
Theorem successful_draw_resets ev c rq :
  draws (dispatch ev c) = draws c ++ [rq] →
  completion (drawDropsTimeline (length (draws c)) rq) = Returned →
  state (dispatch ev c) = {| renderError := ""; errorRetry := 0 |} ∧
  (∃ legend svg canvas, view (dispatch ev c) = VChart legend svg canvas) ∧
  ∀ ev' rq' X,
    draws (dispatch ev' (dispatch ev c)) = draws (dispatch ev c) ++ [rq'] →
    completion (drawDropsTimeline (length (draws (dispatch ev c))) rq')
    = Threw (ThrownValue (Some X)) →
    X ≠ "" →
    view (dispatch ev' (dispatch ev c))
    = VErrorPanel ("Render Error: " +:+ X) "Retry".
Proof.
  intros Hdr Ho.
  destruct (dispatch_draw_inv ev c rq Hdr)
    as (inp & data & st0 & -> & Hw & Hh & He & _ & Hk).
  rewrite Ho in Hk. destruct Hk as [HS Hst].
  unfold stateAfterDraw in Hst. rewrite Ho in Hst.
  assert (∃ legend svg canvas, view (dispatch ev c) = VChart legend svg canvas)
    as Hchart.
  { destruct HS as (_ & _ & Hr & _). rewrite Hst in Hr.
    by apply render_clean in Hr. }
  split_and!; try done.
  intros ev' rq' X Hdr' Ho' HX.
  destruct (dispatch_draw_inv ev' _ rq' Hdr')
    as (inp' & data' & st1 & -> & Hw' & Hh' & He' & Hfrom & Hk').
  rewrite Ho' in Hk'. destruct Hk' as [HS' Hst'].
  unfold stateAfterDraw in Hst'. rewrite Ho' in Hst'. simpl in Hst'.
  assert (errorRetry st1 = 0%nat) as Hzero.
  { destruct Hfrom as [[_ ->]|[[[_ (t & b & Hv)] _]|(m & _ & ->)]].
    - by rewrite Hst.
    - destruct Hchart as (? & ? & ? & Hv'). congruence.
    - by rewrite Hst. }
  rewrite (Settled_view_error inp' _ HS' Hw' Hh') by (by rewrite Hst').
  by rewrite Hst', Hzero.
Qed.
End Recovery.

(** ** What the catch block does with an empty message *)

(** C4, at the input where the code departs from it. The routine raises
    [new Error()], whose message is the empty string: the call is made,
    the error cell stays empty, and the chart is shown as if the draw had
    succeeded. *)
Theorem empty_message_not_surfaced :
  draws (@dispatch nat (drawFails "") (Rerender sampleInputs) initial)
  = [requestOf sampleInputs sampleData] ∧
  completion (@drawDropsTimeline nat (drawFails "") 0
                (requestOf sampleInputs sampleData))
  = Threw (ThrownValue (Some "")) ∧
  renderError (state (@dispatch nat (drawFails "") (Rerender sampleInputs) initial))
  = "" ∧
  ∃ legend svg canvas,
    view (@dispatch nat (drawFails "") (Rerender sampleInputs) initial)
    = VChart legend svg canvas.
Proof. split_and!; [by vm_compute..|]. vm_compute. eauto. Qed.

(** The same routine raising [null]: reading [.message] in the catch
    block raises in turn, and the instance is gone. *)
Example null_thrown_escapes :
  crashed (@dispatch nat drawThrowsNull (Rerender sampleInputs) initial) = true ∧
  view (@dispatch nat drawThrowsNull (Rerender sampleInputs) initial) = VNull.
Proof. by vm_compute. Qed.

(** A message, when there is one that is not empty, is stored as it is,
    and a missing message is replaced by the fallback. *)
Example message_stored_verbatim :
  state (@dispatch nat (drawFails "scale domain is empty")
           (Rerender sampleInputs) initial)
  = {| renderError := "scale domain is empty"; errorRetry := 0 |} ∧
  stateAfterDraw initialState
    {| reported := []; completion := Threw (ThrownValue None) |}
  = {| renderError := "Unknown error."; errorRetry := 0 |}.
Proof. by vm_compute. Qed.

(** A message reported through the callback during a call that then
    returns is overwritten by the reset that follows the call; reported
    after the call, it brings up the panel. *)
Example reported_during_call_is_overwritten :
  state (@dispatch nat (drawReportsAndReturns "no data in range")
           (Rerender sampleInputs) initial)
  = {| renderError := ""; errorRetry := 0 |} ∧
  view (@runEvents nat drawOk [Rerender sampleInputs; Reported "no data in range"]
          initial)
  = VErrorPanel "Render Error: no data in range" "Retry".
Proof. by vm_compute. Qed.

(** ** Instances of the statements *)

(** C2, where the code departs from it: at width -1 the chart is rendered
    and the drawing routine is called. *)
Lemma negative_width_is_drawn :
  (width negativeWidthInputs ≤ 0 ∨ height negativeWidthInputs ≤ 0) ∧
  draws (@dispatch nat drawOk (Rerender negativeWidthInputs) initial)
  = [requestOf negativeWidthInputs sampleData] ∧
  ∃ legend svg canvas,
    view (@dispatch nat drawOk (Rerender negativeWidthInputs) initial)
    = VChart legend svg canvas.
Proof.
  split_and!; [left; by vm_compute|by vm_compute|]. vm_compute. eauto.
Qed.

(** C1, where the code departs from it. The draw of the sample inputs
    fails with "X". A report of the empty message then clears the error
    and the drawing routine is called again, with no retry click and no
    input changed; and a new tuple that arrives under the panel is not
    drawn at all. *)
Lemma error_cleared_without_retry_redraws :
  renderError (state (@dispatch nat (drawFails "X") (Rerender sampleInputs) initial))
  = "X" ∧
  draws (@runEvents nat (drawFails "X") [Rerender sampleInputs; Reported ""] initial)
  = [requestOf sampleInputs sampleData; requestOf sampleInputs sampleData] ∧
  draws (@runEvents nat (drawFails "X")
           [Rerender sampleInputs; Rerender widerInputs] initial)
  = [requestOf sampleInputs sampleData].
Proof. by vm_compute. Qed.

(** The sample inputs are painted, then the width changes from 800 to 801
    and the second call raises; a re-render and a late report follow. *)
Lemma draw_once_per_tuple_witness :
  draws (@dispatch nat (drawFailsLater "X") (Rerender widerInputs)
           (@dispatch nat (drawFailsLater "X") (Rerender sampleInputs) initial))
  = [requestOf sampleInputs sampleData; requestOf widerInputs sampleData] ∧
  draws (@runEvents nat (drawFailsLater "X")
           [Rerender sampleInputs; Reported "late"]
           (@dispatch nat (drawFailsLater "X") (Rerender widerInputs)
              (@dispatch nat (drawFailsLater "X") (Rerender sampleInputs) initial)))
  = [requestOf sampleInputs sampleData; requestOf widerInputs sampleData].
Proof.
  destruct (@draw_once_per_tuple nat (drawFailsLater "X")
              (@dispatch nat (drawFailsLater "X") (Rerender sampleInputs) initial)
              initial sampleInputs widerInputs sampleData
              [Rerender sampleInputs; Reported "late"])
    as (Hd & _ & [He|Hq]);
    [right; split; [reflexivity|right; left; by vm_compute]
    |by vm_compute|by vm_compute|by vm_compute|by vm_compute|by vm_compute
    |by vm_compute
    |eexists; vm_compute; reflexivity
    |repeat constructor; by vm_compute
    |clear Hd; vm_compute in He; discriminate He
    |].
  vm_compute in Hd, Hq. vm_compute. split; [exact Hd|exact Hq].
Defined.

(** The sample inputs at width 0, on mount. *)
Lemma zero_viewport_no_draw_witness :
  draws (@dispatch nat drawOk (Rerender zeroWidthInputs) initial) = draws (@initial nat) ∧
  state (@dispatch nat drawOk (Rerender zeroWidthInputs) initial) = state (@initial nat) ∧
  view (@dispatch nat drawOk (Rerender zeroWidthInputs) initial) = VNull.
Proof.
  apply (@zero_viewport_no_draw nat drawOk zeroWidthInputs initial);
    [left; reflexivity|reflexivity].
Defined.

(** A model without buckets: mount, a press of retry, a re-render. *)
Lemma empty_log_no_draw_witness :
  draws (@dispatch nat drawOk (Rerender emptyLogInputs) initial) = draws (@initial nat) ∧
  state (@dispatch nat drawOk (Rerender emptyLogInputs) initial) = state (@initial nat) ∧
  draws (@runEvents nat drawOk [Retry; Rerender emptyLogInputs]
           (@dispatch nat drawOk (Rerender emptyLogInputs) initial))
  = draws (@initial nat) ∧
  (renderError (state (@initial nat)) = "" →
   renderError (state (@runEvents nat drawOk [Retry; Rerender emptyLogInputs]
                         (@dispatch nat drawOk (Rerender emptyLogInputs) initial)))
   = "").
Proof.
  apply (@empty_log_no_draw nat drawOk emptyLogInputs
           (mkRef 2%positive
              {| selectedPeriod := "day"; startDate := 0; endDate := 86400000;
                 maxDrops := 0; categoriesSorted := ["afk"; "ban"; "idle"];
                 log := [] |}));
    [reflexivity|reflexivity|].
  repeat constructor. eexists. split; reflexivity.
Defined.

(** A routine that always raises "X": the first failure and two retries. *)
Lemma error_panel_retry_caption_witness :
  @render nat (drawFails "X") sampleInputs {| renderError := "X"; errorRetry := 3 |}
  = Some (VErrorPanel "Render Error: X" "Retry (3)") ∧
  view (@dispatch nat (drawFails "X") (Rerender sampleInputs) initial)
  = VErrorPanel "Render Error: X" "Retry" ∧
  view (@runEvents nat (drawFails "X") [Retry; Retry]
          (@dispatch nat (drawFails "X") (Rerender sampleInputs) initial))
  = VErrorPanel "Render Error: X" "Retry (2)".
Proof.
  destruct (@error_panel_retry_caption nat (drawFails "X") sampleInputs sampleData
              (@dispatch nat (drawFails "X") (Rerender sampleInputs) initial) 2
              {| renderError := "X"; errorRetry := 3 |})
    as (Hr & Hv & _ & _ & Hv2);
    [by vm_compute|by vm_compute|by vm_compute
    |repeat split; by vm_compute
    |by vm_compute|by vm_compute
    |eexists; vm_compute; reflexivity
    |by vm_compute|by vm_compute
    |intros i _; exists (Some "X"); split; [reflexivity|by vm_compute]
    |].
  vm_compute in Hr, Hv, Hv2. vm_compute.
  split; [exact Hr|split; [exact Hv|exact Hv2]].
Defined.

(** A routine that raises once: the retry after the failure succeeds. *)
Lemma successful_draw_resets_witness :
  state (@dispatch nat (drawFailsOnce "X") Retry
           (@dispatch nat (drawFailsOnce "X") (Rerender sampleInputs) initial))
  = {| renderError := ""; errorRetry := 0 |} ∧
  ∃ legend svg canvas,
    view (@dispatch nat (drawFailsOnce "X") Retry
            (@dispatch nat (drawFailsOnce "X") (Rerender sampleInputs) initial))
    = VChart legend svg canvas.
Proof.
  destruct (@successful_draw_resets nat (drawFailsOnce "X") Retry
              (@dispatch nat (drawFailsOnce "X") (Rerender sampleInputs) initial)
              (requestOf sampleInputs sampleData))
    as (Hs & Hv & _); [by vm_compute|by vm_compute|].
  split; [exact Hs|exact Hv].
Defined.

(** The legend of ["afk"; "ban"; "idle"] over the sample registry. *)
Lemma ChartLabels_reversed_rows_witness :
  ∃ rows, @ChartLabels nat drawOk ["afk"; "ban"; "idle"] = Some rows ∧
    row_key <$> rows = ["idle"; "ban"; "afk"].
Proof.
  destruct (@ChartLabels_reversed_rows nat drawOk ["afk"; "ban"; "idle"])
    as (rows & HL & _ & Hk & _).
  - intros catName Hin.
    repeat (apply elem_of_cons in Hin as [->|Hin]; [eexists; by vm_compute|]).
    by apply elem_of_nil in Hin.
  - exists rows. split; [exact HL|exact Hk].
Defined.


(** [jsSub] against the subtraction of the kernel's floats: small and
    negative sizes, the first integers beyond 2^53 (a tie each way), and
    1e17. *)
Example jsSub_agrees_with_floats :
  Forall (λ ab, floatSub ab.1 ab.2 = Some (jsSub ab.1 ab.2))
    [(800, 42); (758, 8); (30, 42); (-1, 42); (0, 8);
     (9007199254740992, 1); (9007199254740994, 1); (9007199254740996, 1);
     (-9007199254740994, 1); (10 ^ 17, 42); (99999999999999952, 8);
     (-(10 ^ 17), 42); (2 ^ 62, 24)].
Proof. repeat constructor. Qed.


(** C9, where the code departs from it: "toString" has no entry in the
    sample registry, yet the read answers with the function every object
    inherits; nothing raises, the legend gets a row without colours and
    label, and the chart is drawn. *)
Lemma inherited_name_renders_blank_row :
  sampleCategories !! "toString" = None ∧
  @ChartLabels nat drawOk ["afk"; "toString"]
  = Some [ {| row_key := "toString"; backgroundColor := ""; borderColor := "";
              row_text := ":"; slot_category := "toString"; slot_content := "" |};
           {| row_key := "afk"; backgroundColor := "#9A9A9A";
              borderColor := "#7B7B7B"; row_text := "AFK:";
              slot_category := "afk"; slot_content := "" |} ] ∧
  crashed (@dispatch nat drawOk (Rerender inheritedNameInputs) initial) = false ∧
  length (draws (@dispatch nat drawOk (Rerender inheritedNameInputs) initial)) = 1%nat.
Proof. by vm_compute. Qed.

(** "vip" is not in the sample registry and no object inherits it. *)
Lemma ChartLabels_unknown_category_raises_witness :
  @ChartLabels nat drawOk ["afk"; "vip"] = None ∧
  @render nat drawOk unknownCategoryInputs initialState = None.
Proof.
  destruct (@ChartLabels_unknown_category_raises nat drawOk ["afk"; "vip"] "vip"
              unknownCategoryInputs
              (mkRef 3%positive
                 {| selectedPeriod := "day"; startDate := 0; endDate := 86400000;
                    maxDrops := 7; categoriesSorted := ["afk"; "vip"];
                    log := [3%nat] |})
              initialState)
    as (HL & Hr & _);
    [apply list_elem_of_further, list_elem_of_here|by vm_compute
    |apply (bool_decide_unpack _); by vm_compute
    |by vm_compute..|].
  split; [exact HL|exact Hr].
Defined.

(** The sample store, whose array at address 5 is the category list. *)
Lemma ChartLabels_store_frame_witness :
  ∃ h', @ArrayStore.ChartLabels_store nat drawOk sampleStore 5%positive
        = Some (h', @ChartLabels nat drawOk ["afk"; "ban"; "idle"]) ∧
    h' !! 5%positive = Some ["afk"; "ban"; "idle"].
Proof.
  destruct (@ChartLabels_store_frame nat drawOk sampleStore 5%positive
              ["afk"; "ban"; "idle"])
    as (h' & Hrun & Hsame & _); [by vm_compute|].
  exists h'. split; [exact Hrun|exact Hsame].
Defined.

(** Without the copy the caller's array would be the one reversed. *)
Example reverseInPlace_writes_through :
  ArrayStore.reverseInPlace sampleStore 5%positive
  = Some (5%positive, {[ 5%positive := ["idle"; "ban"; "afk"] ]}).
Proof. by vm_compute. Qed.

(** * Further properties of the component *)

(** ** The update loop *)

Section UpdateLoop.
Context {Datum : Type} `{!Collaborators Datum}.
Implicit Types (inp : Inputs Datum) (c : Mounted Datum) (st : RenderState).

(** X1. The effect sets state that is itself one of its dependencies, yet
    the loop of renders it starts is over after two passes: every larger
    limit gives the same instance, and one more pass over the result
    changes nothing, so React's limit of nested updates is never met. *)
Theorem render_loop_settles n inp c :
  rerender (S (S n)) inp c = rerender 2 inp c ∧
  pass inp (rerender (S (S n)) inp c) = rerender (S (S n)) inp c ∧
  pass inp (dispatch (Rerender inp) c) = dispatch (Rerender inp) c.
Proof.
  split_and!.
  - apply rerender_two.
  - apply rerender_fixed.
  - rewrite dispatch_Rerender. apply rerender_fixed.
Qed.

Lemma rerender_draws_step inp c :
  draws (rerender 2 inp c) = draws c ∨
  ∃ rq, draws (rerender 2 inp c) = draws c ++ [rq].
Proof.
  destruct (rerender_cases 0 inp c)
    as [[(Hd & _)|(Hd & _)]|(data & _ & _ & _ & _ & _ & _ & _ & _ & Hd & _)];
    eauto.
Qed.

Lemma dispatch_draws_step (ev : Event Datum) c :
  draws (dispatch ev c) = draws c ∨
  ∃ rq, draws (dispatch ev c) = draws c ++ [rq].
Proof.
  destruct ev as [inp| |m]; unfold dispatch.
  - rewrite rerender_limit. apply rerender_draws_step.
  - destruct (view c); try by left.
    destruct (inputs c) as [inp|]; [|by left].
    rewrite rerender_limit.
    apply (rerender_draws_step inp (withState c (applyUpdates onRetryClick (state c)))).
  - destruct (draws c) as [|d ds] eqn:Hdraws; [left; by rewrite Hdraws|].
    rewrite <- Hdraws.
    destruct (inputs c) as [inp|]; [|by left].
    destruct (crashed c); [by left|].
    rewrite rerender_limit.
    apply (rerender_draws_step inp
             (withState c (applyUpdates [SetRenderError m] (state c)))).
Qed.

(** X2. The calls of the drawing routine are only ever added to, and no
    event (render, retry click or late report) adds more than one: after
    any sequence of events the log of calls is the old one followed by at
    most as many requests as there were events. *)
Theorem draws_bounded_by_events (evs : list (Event Datum)) c :
  ∃ added, draws (runEvents evs c) = draws c ++ added ∧
           (length added ≤ length evs)%nat.
Proof.
  revert c. induction evs as [|ev evs IH]; intros c.
  { exists []. by rewrite app_nil_r. }
  rewrite runEvents_cons.
  destruct (IH (dispatch ev c)) as (added & Hd & Hlen).
  destruct (dispatch_draws_step ev c) as [Hs|[rq Hs]]; rewrite Hs in Hd.
  - exists added. split; [done|]. simpl. lia.
  - exists (rq :: added). split; [by rewrite Hd, <- app_assoc|]. simpl. lia.
Qed.

(** X3. A render calls the drawing routine exactly when the instance is
    mounted, shows no error, the viewport has width and height, some
    dependency differs from the previous render, and the model is there,
    has a non-empty log and lists only categories that the registry
    object answers, with an entry of its own or with a property every
    object inherits. *)
Theorem render_draws_iff inp c :
  draws (dispatch (Rerender inp) c) ≠ draws c ↔
  crashed c = false ∧ renderError (state c) = "" ∧
  width inp ≠ 0 ∧ height inp ≠ 0 ∧
  lastDeps c ≠ Some (depsOf inp (state c)) ∧
  ∃ data, chartData inp = Some data ∧ log (deref data) ≠ [] ∧
    Forall (λ catName, is_Some (playerDropCategories !! catName) ∨
                       catName ∈ objectPrototypeNames)
      (categoriesSorted (deref data)).
Proof.
  rewrite dispatch_Rerender. split.
  - intros Hne.
    destruct (rerender_cases 0 inp c)
      as [[(Hd & _)|(Hd & _)]|(data & Hc & Hdata & He & Hw & Hh & Hlog & Hld & [v Hr] & _)];
      [done..|].
    split_and!; try done. exists data. split_and!; try done.
    destruct (render_clean inp (state c) v Hw Hh He Hr) as (l & s & cv & ->).
    destruct (render_chart_inv _ _ _ _ _ Hr)
      as (_ & _ & _ & data' & rows & Hdata' & HL & _).
    replace data with data' by congruence.
    apply ChartLabels_is_Some. by exists rows.
  - intros (Hc & He & Hw & Hh & Hld & data & Hdata & Hlog & HL) Hd.
    apply ChartLabels_is_Some in HL.
    destruct (rerender_draw 0 inp c data Hc He Hdata Hlog Hw Hh HL Hld) as [Hdr _].
    rewrite Hdr in Hd. symmetry in Hd. by apply app_singleton_neq in Hd.
Qed.

(** X12. The effect guards against a missing model, the render function
    does not: with a viewport and no error showing, rendering without
    [chartData] raises on [chartData.categoriesSorted], the instance is
    removed and the drawing routine is not called; at a viewport without
    width or height the same inputs render nothing and do no harm. *)
Theorem missing_chartData_raises inp c :
  chartData inp = None → crashed c = false →
  draws (dispatch (Rerender inp) c) = draws c ∧
  (width inp ≠ 0 → height inp ≠ 0 → renderError (state c) = "" →
   crashed (dispatch (Rerender inp) c) = true ∧
   view (dispatch (Rerender inp) c) = VNull) ∧
  (width inp = 0 ∨ height inp = 0 →
   crashed (dispatch (Rerender inp) c) = false ∧
   view (dispatch (Rerender inp) c) = VNull).
Proof.
  intros Hd Hc. rewrite dispatch_Rerender. split_and!.
  - destruct (rerender_cases 0 inp c)
      as [[(? & _)|(? & _)]|(data & _ & Hd' & _)]; [done..|congruence].
  - intros Hw Hh He.
    assert (render inp (state c) = None) as Hr.
    { unfold render. apply truthy_number_true in Hw, Hh.
      by rewrite Hw, Hh, He, Hd. }
    by rewrite rerender_render_raises.
  - intros H0.
    destruct (rerender_zero_viewport 0 inp c H0) as (_ & _ & Hcr).
    rewrite Hc in Hcr. split; [done|].
    apply rerender_settled in Hcr as (_ & _ & Hr & _).
    rewrite render_null in Hr by done. congruence.
Qed.
End UpdateLoop.

(** ** The catch block and the retry button *)

Section CatchAndRetry.
Context {Datum : Type} `{!Collaborators Datum}.
Implicit Types (inp : Inputs Datum) (c : Mounted Datum) (st : RenderState).

(** X5. When the call made by a render raises a value other than [null]
    or [undefined], the error cell receives the value's message as it is,
    or "Unknown error." when the value has none, and the retry count is
    left alone; unless that text is empty, the panel then shows it after
    "Render Error: ". *)
Theorem caught_message_stored inp data c (message : option string) :
  crashed c = false → renderError (state c) = "" →
  chartData inp = Some data → log (deref data) ≠ [] →
  width inp ≠ 0 → height inp ≠ 0 →
  is_Some (ChartLabels (categoriesSorted (deref data))) →
  lastDeps c ≠ Some (depsOf inp (state c)) →
  completion (drawDropsTimeline (length (draws c)) (requestOf inp data))
  = Threw (ThrownValue message) →
  state (dispatch (Rerender inp) c)
  = {| renderError := default "Unknown error." message;
       errorRetry := errorRetry (state c) |} ∧
  (default "Unknown error." message = "" ∨
   view (dispatch (Rerender inp) c)
   = VErrorPanel ("Render Error: " +:+ default "Unknown error." message)
                 (retryCaption (errorRetry (state c)))).
Proof.
  intros Hc He Hd Hlog Hw Hh HL Hld Ho. rewrite dispatch_Rerender.
  destruct (rerender_draw 0 inp c data Hc He Hd Hlog Hw Hh HL Hld) as [_ Hk].
  rewrite Ho in Hk. destruct Hk as [Hcr Hst].
  unfold stateAfterDraw in Hst. rewrite Ho in Hst.
  split; [done|].
  destruct (decide (default "Unknown error." message = "")) as [|Hm]; [by left|right].
  apply rerender_settled in Hcr.
  rewrite (Settled_view_error inp _ Hcr Hw Hh) by (by rewrite Hst).
  by rewrite Hst.
Qed.

Lemma rerender_nullish n inp c data :
  crashed c = false → renderError (state c) = "" →
  chartData inp = Some data → log (deref data) ≠ [] →
  width inp ≠ 0 → height inp ≠ 0 →
  is_Some (ChartLabels (categoriesSorted (deref data))) →
  lastDeps c ≠ Some (depsOf inp (state c)) →
  completion (drawDropsTimeline (length (draws c)) (requestOf inp data))
  = Threw ThrownNullish →
  rerender (S n) inp c = unmount c [requestOf inp data].
Proof.
  intros Hc He Hd Hlog Hw Hh HL Hld Ho.
  destruct (pass_draw inp c data Hc He Hd Hlog Hw Hh HL Hld) as (v & _ & Hp).
  rewrite Ho in Hp. simpl. rewrite Hp. by rewrite decide_True.
Qed.

Lemma dispatch_unmounted (ev : Event Datum) c :
  crashed c = true → view c = VNull → dispatch ev c = c.
Proof.
  intros Hc Hv. destruct ev as [inp| |m]; unfold dispatch.
  - by apply rerender_crashed.
  - by rewrite Hv.
  - rewrite Hc. by destruct (draws c), (inputs c).
Qed.

(** X6. When the call raises [null] or [undefined], the catch block
    itself raises on reading [.message]: no error is stored or shown, the
    instance is removed with both state cells as they were, and no later
    event, the retry click included, brings it back or draws again. *)
Theorem nullish_throw_escapes inp data c (evs : list (Event Datum)) :
  crashed c = false → renderError (state c) = "" →
  chartData inp = Some data → log (deref data) ≠ [] →
  width inp ≠ 0 → height inp ≠ 0 →
  is_Some (ChartLabels (categoriesSorted (deref data))) →
  lastDeps c ≠ Some (depsOf inp (state c)) →
  completion (drawDropsTimeline (length (draws c)) (requestOf inp data))
  = Threw ThrownNullish →
  dispatch (Rerender inp) c = unmount c [requestOf inp data] ∧
  runEvents evs (dispatch (Rerender inp) c) = dispatch (Rerender inp) c.
Proof.
  intros Hc He Hd Hlog Hw Hh HL Hld Ho. rewrite dispatch_Rerender.
  rewrite (rerender_nullish 1 inp c data) by done.
  split; [done|].
  induction evs as [|ev evs IH]; [done|].
  rewrite runEvents_cons. by rewrite dispatch_unmounted.
Qed.

(** X4. With the panel showing and inputs that pass the guards, a press
    of the retry button leads to exactly one call of the drawing routine,
    with the request built from the current inputs. If the call returns,
    the error is gone, the count is zero and the chart is shown; if it
    raises a value, the count has gone up by one and the error cell holds
    the new message; if it raises [null], the instance is removed. *)
Theorem retry_redraws_once inp data c :
  Settled inp c → renderError (state c) ≠ "" →
  chartData inp = Some data → log (deref data) ≠ [] →
  width inp ≠ 0 → height inp ≠ 0 →
  is_Some (ChartLabels (categoriesSorted (deref data))) →
  draws (dispatch Retry c) = draws c ++ [requestOf inp data] ∧
  match completion (drawDropsTimeline (length (draws c)) (requestOf inp data)) with
  | Returned =>
      state (dispatch Retry c) = {| renderError := ""; errorRetry := 0 |} ∧
      ∃ legend svg canvas, view (dispatch Retry c) = VChart legend svg canvas
  | Threw (ThrownValue message) =>
      state (dispatch Retry c)
      = {| renderError := default "Unknown error." message;
           errorRetry := S (errorRetry (state c)) |}
  | Threw ThrownNullish => crashed (dispatch Retry c) = true
  end.
Proof.
  intros HS He Hd Hlog Hw Hh HL.
  pose proof (Settled_view_error inp c HS Hw Hh He) as Hv.
  destruct HS as (Hc & Hin & Hr & Hrefs & Hld).
  unfold dispatch. rewrite Hv, Hin, rerender_limit.
  set (c0 := withState c (applyUpdates onRetryClick (state c))).
  assert (lastDeps c0 ≠ Some (depsOf inp (state c0))) as Hld0.
  { unfold c0. cbn. rewrite Hld. intros [= E]. done. }
  destruct (rerender_draw 0 inp c0 data Hc eq_refl Hd Hlog Hw Hh HL Hld0) as [Hdr Hk].
  change (draws c0) with (draws c) in *.
  split; [done|].
  unfold stateAfterDraw in Hk.
  destruct (completion _) as [|[|message]]; [|done|].
  - destruct Hk as [Hcr Hst]. split; [done|].
    apply rerender_settled in Hcr as (_ & _ & Hr' & _).
    rewrite Hst in Hr'. by apply render_clean in Hr'.
  - destruct Hk as [_ ->]. unfold c0. cbn. f_equal. lia.
Qed.

(** X8. A message that reaches the error reporter after the call has
    finished leads to no further call: with a viewport, a non-empty
    message brings up the panel with that message and leaves the retry
    count as it was. *)
Theorem late_report_shows_panel inp c (message : string) :
  Settled inp c → draws c ≠ [] →
  width inp ≠ 0 → height inp ≠ 0 → message ≠ "" →
  draws (dispatch (Reported message) c) = draws c ∧
  state (dispatch (Reported message) c)
  = {| renderError := message; errorRetry := errorRetry (state c) |} ∧
  view (dispatch (Reported message) c)
  = VErrorPanel ("Render Error: " +:+ message)
                (retryCaption (errorRetry (state c))).
Proof.
  intros HS Hdr Hw Hh Hm.
  destruct HS as (Hc & Hin & _).
  unfold dispatch. destruct (draws c) as [|d ds] eqn:Hdraws; [done|].
  rewrite <- Hdraws, Hin, Hc, rerender_limit.
  set (c0 := withState c (applyUpdates [SetRenderError message] (state c))).
  assert (render inp (state c0) ≠ None) as Hr.
  { unfold c0. cbn. by rewrite render_error. }
  destruct (rerender_cases 0 inp c0)
    as [[(Hd & Hst & Hcr)|(_ & _ & Hr')]|(data & _ & _ & He & _)]; [|done..].
  change (crashed c0) with (crashed c) in Hcr. rewrite Hc in Hcr.
  apply rerender_settled in Hcr.
  split_and!; [done|by rewrite Hst|].
  rewrite (Settled_view_error inp _ Hcr Hw Hh) by (by rewrite Hst).
  by rewrite Hst.
Qed.
(** X13. With the panel showing over a model whose log is empty, a press
    of the retry button clears the error and raises the count without any
    call of the drawing routine: the chart surfaces come back unpainted,
    and the count is not reset, since no call has returned. *)
Theorem retry_without_data_dismisses inp data c :
  Settled inp c → renderError (state c) ≠ "" →
  chartData inp = Some data → log (deref data) = [] →
  width inp ≠ 0 → height inp ≠ 0 →
  is_Some (ChartLabels (categoriesSorted (deref data))) →
  draws (dispatch Retry c) = draws c ∧
  state (dispatch Retry c)
  = {| renderError := ""; errorRetry := S (errorRetry (state c)) |} ∧
  ∃ legend svg canvas, view (dispatch Retry c) = VChart legend svg canvas.
Proof.
  intros HS He Hd Hlog Hw Hh [rows HL].
  pose proof (Settled_view_error inp c HS Hw Hh He) as Hv.
  destruct HS as (Hc & Hin & _).
  unfold dispatch. rewrite Hv, Hin, rerender_limit.
  set (c0 := withState c (applyUpdates onRetryClick (state c))).
  assert (state c0 = {| renderError := ""; errorRetry := S (errorRetry (state c)) |})
    as Hst0.
  { unfold c0. cbn. f_equal. lia. }
  assert (render inp (state c0) ≠ None) as Hr.
  { rewrite (render_chart inp (state c0) data rows); done. }
  destruct (rerender_cases 0 inp c0)
    as [[(Hdr & Hst & Hcr)|(_ & _ & Hr')]|(data' & _ & Hd' & _ & _ & _ & Hlog' & _)];
    [|done|congruence].
  change (crashed c0) with (crashed c) in Hcr. rewrite Hc in Hcr.
  apply rerender_settled in Hcr as (_ & _ & Hr' & _).
  split_and!; [done|by rewrite Hst|].
  rewrite Hst, Hst0 in Hr'. by apply render_clean in Hr'.
Qed.
End CatchAndRetry.

(** ** The error reporter during a call *)

Section ReporterDuringCall.
Context {Datum : Type} (registry : gmap string CategoryMeta).
Context (draw1 draw2 : nat → DrawRequest Datum → DrawOutcome).
Hypothesis same_completion :
  ∀ calls rq, completion (draw1 calls rq) = completion (draw2 calls rq).
Implicit Types (inp : Inputs Datum) (c : Mounted Datum).

Local Abbreviation K1 := (mkCollaborators Datum registry draw1).
Local Abbreviation K2 := (mkCollaborators Datum registry draw2).

Lemma effect_same_completion inp rf calls :
  drawn (@effect Datum K1 inp rf calls) = drawn (@effect Datum K2 inp rf calls) ∧
  raised (@effect Datum K1 inp rf calls) = raised (@effect Datum K2 inp rf calls) ∧
  (raised (@effect Datum K2 inp rf calls) = false →
   ∀ st, applyUpdates (updates (@effect Datum K1 inp rf calls)) st
         = applyUpdates (updates (@effect Datum K2 inp rf calls)) st).
Proof.
  unfold effect.
  destruct (chartData inp) as [data|]; [|done].
  destruct (legendRef rf) as [legend|]; [|done].
  destruct (svgRef rf) as [svg|]; [|done].
  destruct (canvasRef rf) as [canvas|]; [|done].
  destruct (negb _ || negb _); [done|].
  case_decide; [done|]. cbn [drawDropsTimeline].
  match goal with |- context [draw1 calls ?r] => set (rq := r) end.
  pose proof (same_completion calls rq) as Ho.
  destruct (draw1 calls rq) as [ms1 k1], (draw2 calls rq) as [ms2 k2].
  simpl in Ho. subst k2.
  destruct k1 as [|[|m]]; cbn [updates drawn raised reported completion];
    split_and!; try done.
  - intros _ st. by rewrite !applyUpdates_success.
  - intros _ st. by rewrite !applyUpdates_caught.
Qed.

Lemma pass_same_completion inp c :
  @pass Datum K1 inp c = @pass Datum K2 inp c.
Proof.
  unfold pass. destruct (crashed c); [done|].
  change (@render Datum K2 inp (state c)) with (@render Datum K1 inp (state c)).
  destruct (@render Datum K1 inp (state c)) as [v|]; [|done].
  case_decide; [done|].
  destruct (effect_same_completion inp (commitRefs v) (length (draws c)))
    as (Hd & Hr & Hu).
  rewrite Hd, Hr.
  destruct (raised (@effect Datum K2 inp (commitRefs v) (length (draws c))));
    [done|].
  by rewrite Hu.
Qed.

Lemma rerender_same_completion limit inp c :
  @rerender Datum K1 limit inp c = @rerender Datum K2 limit inp c.
Proof.
  revert c. induction limit as [|limit IH]; intros c; [done|].
  simpl. rewrite pass_same_completion. case_decide; [done|]. apply IH.
Qed.

Lemma dispatch_same_completion (ev : Event Datum) c :
  @dispatch Datum K1 ev c = @dispatch Datum K2 ev c.
Proof.
  destruct ev as [inp| |m]; unfold dispatch.
  - apply rerender_same_completion.
  - destruct (view c), (inputs c); try done. apply rerender_same_completion.
  - destruct (draws c), (inputs c), (crashed c); try done.
    apply rerender_same_completion.
Qed.

(** X7. What the drawing routine passes to [setRenderError] while a call
    is running never shows: two routines that finish every call the same
    way, whatever they report meanwhile, take the component through the
    same states, views and calls for every sequence of events. The reset
    after a call that returns, and the message of a raised value, always
    come last. *)
Theorem reported_during_call_ignored (evs : list (Event Datum)) c :
  @runEvents Datum K1 evs c = @runEvents Datum K2 evs c.
Proof.
  revert c. induction evs as [|ev evs IH]; intros c; [done|].
  change (@runEvents Datum K1 evs (@dispatch Datum K1 ev c)
          = @runEvents Datum K2 evs (@dispatch Datum K2 ev c)).
  by rewrite dispatch_same_completion, IH.
Qed.
End ReporterDuringCall.

(** ** Sizes and keys *)

Section SizesAndKeys.
Context {Datum : Type} `{!Collaborators Datum}.

(** X9. With no error showing and a model whose legend renders, the
    chart is rendered for every viewport whose width and height are not
    zero, however small: the canvas it renders has a positive width only
    above 50 pixels of viewport width and a positive height only above 32
    pixels of viewport height. *)
Theorem canvas_positive_iff (inp : Inputs Datum) (st : RenderState)
    (data : Ref (TimelineDropsChartData Datum)) (rows : list LegendRow) :
  width inp ≠ 0 → height inp ≠ 0 → renderError st = "" →
  chartData inp = Some data →
  ChartLabels (categoriesSorted (deref data)) = Some rows →
  ∃ legend svg canvas,
    render inp st = Some (VChart legend svg canvas) ∧
    (0 < cv_width canvas ↔ 50 < width inp) ∧
    (0 < cv_height canvas ↔ 32 < height inp).
Proof.
  intros Hw Hh He Hd HL.
  rewrite (render_chart inp st data rows Hw Hh He Hd HL).
  eexists _, _, _. split; [reflexivity|]. cbn [cv_width cv_height].
  split.
  - rewrite jsSub_twice_pos by (simpl; lia). simpl. lia.
  - rewrite jsSub_twice_pos by (simpl; lia). simpl. lia.
Qed.

(** X10. When the legend is rendered, its rows have pairwise distinct
    keys exactly when the category list has no repetition, and every
    value slot is addressed by the key of its row, so that a category is
    found in one slot only if it is listed once. *)
Theorem legend_keys_unique (categories : list string) (rows : list LegendRow) :
  ChartLabels categories = Some rows →
  (NoDup (row_key <$> rows) ↔ NoDup categories) ∧
  slot_category <$> rows = row_key <$> rows ∧
  ∀ catName, catName ∈ categories ↔ catName ∈ slot_category <$> rows.
Proof.
  intros HL. unfold ChartLabels in HL.
  apply mapM_Some, labelRows_keys in HL as [Hk Hs].
  split_and!.
  - by rewrite Hk, reverse_Permutation.
  - by rewrite Hk, Hs.
  - intros catName. by rewrite Hs, elem_of_reverse.
Qed.

Lemma labelRows_self (cats : list string) (rows : list LegendRow) :
  Forall2 (λ catName r, labelRow catName = Some r) cats rows →
  Forall (λ r, labelRow (row_key r) = Some r) rows.
Proof.
  induction 1 as [|catName r cats rows Hr _ IH]; constructor; [|done].
  by rewrite (proj1 (labelRow_key _ _ Hr)).
Qed.

(** X14. The legend renders exactly when every listed category is
    answered by the registry object, by an entry of its own or by a
    property every object inherits (toString, constructor, ...). A row
    whose category has no entry of its own is then a blank one: the name
    is an inherited one, both colours are empty and the text is ":". *)
Theorem ChartLabels_renders_iff (categories : list string) :
  (is_Some (ChartLabels categories) ↔
   Forall (λ catName, is_Some (playerDropCategories !! catName) ∨
                      catName ∈ objectPrototypeNames) categories) ∧
  ∀ rows, ChartLabels categories = Some rows →
    Forall (λ r, playerDropCategories !! row_key r = None →
                 row_key r ∈ objectPrototypeNames ∧
                 backgroundColor r = "" ∧ borderColor r = "" ∧
                 row_text r = ":") rows.
Proof.
  split; [apply ChartLabels_is_Some|].
  intros rows HL. unfold ChartLabels in HL.
  apply mapM_Some, labelRows_self in HL.
  eapply Forall_impl; [exact HL|].
  intros r Hr Hnone. simpl in Hr.
  unfold labelRow, readCategory in Hr. rewrite Hnone in Hr.
  case_decide; [|done]. by injection Hr as <-.
Qed.
End SizesAndKeys.

(** ** Rendering the legend again *)

Section StoreAgain.
Context {Datum : Type} `{!Collaborators Datum}.
Import ArrayStore.

Lemma ChartLabels_store_run (h : gmap positive (list string))
    (categories : positive) (cats : list string) :
  h !! categories = Some cats →
  ∃ h', ChartLabels_store h categories = Some (h', ChartLabels cats) ∧
    h' !! categories = Some cats.
Proof.
  intros Ha. unfold ChartLabels_store, slice, reverseInPlace.
  rewrite Ha. simpl.
  assert (fresh (dom h) ≠ categories) as Hne.
  { intros E. pose proof (is_fresh (dom h)) as Hf. rewrite E in Hf.
    apply Hf, elem_of_dom. eauto. }
  rewrite lookup_insert_eq. simpl. rewrite lookup_insert_eq. simpl.
  eexists. split; [reflexivity|]. by rewrite !lookup_insert_ne.
Qed.

(** X11. The legend can be rendered from the same array any number of
    times: every render returns the same rows in the same order, because
    each one reverses a copy of its own and finds the array as the caller
    left it. *)
Theorem ChartLabels_store_again (n : nat) (h : gmap positive (list string))
    (categories : positive) (cats : list string) :
  h !! categories = Some cats →
  ∃ h', Nat.iter n (λ s, default s (fst <$> ChartLabels_store s categories)) h = h' ∧
    h' !! categories = Some cats ∧
    (snd <$> ChartLabels_store h' categories) = Some (ChartLabels cats).
Proof.
  intros Ha. induction n as [|n (h' & Hit & Ha' & _)].
  - exists h. split_and!; try done.
    by destruct (ChartLabels_store_run h categories cats Ha) as (h1 & -> & _).
  - destruct (ChartLabels_store_run h' categories cats Ha') as (h1 & Hrun & Ha1).
    exists h1. split_and!; try done.
    + simpl. by rewrite Hit, Hrun.
    + by destruct (ChartLabels_store_run h1 categories cats Ha1) as (h2 & -> & _).
Qed.
End StoreAgain.

(** ** Instances of the further properties *)

(** A routine that raises once: the retry after the first failure makes
    the second call, which returns. *)
Lemma retry_redraws_once_witness :
  draws (@dispatch nat (drawFailsOnce "X") Retry
           (@dispatch nat (drawFailsOnce "X") (Rerender sampleInputs) initial))
  = [requestOf sampleInputs sampleData; requestOf sampleInputs sampleData] ∧
  state (@dispatch nat (drawFailsOnce "X") Retry
           (@dispatch nat (drawFailsOnce "X") (Rerender sampleInputs) initial))
  = {| renderError := ""; errorRetry := 0 |}.
Proof.
  destruct (@retry_redraws_once nat (drawFailsOnce "X") sampleInputs sampleData
              (@dispatch nat (drawFailsOnce "X") (Rerender sampleInputs) initial))
    as [Hd Hk];
    [repeat split; by vm_compute
    |by vm_compute|by vm_compute|by vm_compute|by vm_compute|by vm_compute
    |eexists; vm_compute; reflexivity
    |].
  vm_compute in Hd, Hk. destruct Hk as [Hs _]. vm_compute.
  split; [exact Hd|exact Hs].
Defined.

(** A routine that raises [new Error("X")] on mount. *)
Lemma caught_message_stored_witness :
  state (@dispatch nat (drawFails "X") (Rerender sampleInputs) initial)
  = {| renderError := "X"; errorRetry := 0 |} ∧
  view (@dispatch nat (drawFails "X") (Rerender sampleInputs) initial)
  = VErrorPanel "Render Error: X" "Retry".
Proof.
  destruct (@caught_message_stored nat (drawFails "X") sampleInputs sampleData
              initial (Some "X"))
    as [Hs [Hm|Hv]];
    [by vm_compute|by vm_compute|by vm_compute|by vm_compute|by vm_compute
    |by vm_compute
    |eexists; vm_compute; reflexivity
    |by vm_compute|by vm_compute
    |clear Hs; vm_compute in Hm; discriminate Hm
    |].
  vm_compute in Hs, Hv. vm_compute. split; [exact Hs|exact Hv].
Defined.

(** A routine that raises [null] on mount, then a retry click and a
    re-render. *)
Lemma nullish_throw_escapes_witness :
  @dispatch nat drawThrowsNull (Rerender sampleInputs) initial
  = unmount initial [requestOf sampleInputs sampleData] ∧
  @runEvents nat drawThrowsNull [Retry; Rerender sampleInputs]
    (@dispatch nat drawThrowsNull (Rerender sampleInputs) initial)
  = @dispatch nat drawThrowsNull (Rerender sampleInputs) initial.
Proof.
  apply (@nullish_throw_escapes nat drawThrowsNull sampleInputs sampleData initial
           [Retry; Rerender sampleInputs]);
    [by vm_compute|by vm_compute|by vm_compute|by vm_compute|by vm_compute
    |by vm_compute
    |eexists; vm_compute; reflexivity
    |by vm_compute|by vm_compute].
Defined.

(** A routine that reports a message and returns, against one that
    returns without a word. *)
Lemma reported_during_call_ignored_witness :
  @runEvents nat
    (mkCollaborators nat sampleCategories
       (λ _ _, {| reported := ["no data in range"]; completion := Returned |}))
    [Rerender sampleInputs] initial
  = @runEvents nat
      (mkCollaborators nat sampleCategories
         (λ _ _, {| reported := []; completion := Returned |}))
      [Rerender sampleInputs] initial.
Proof.
  apply (@reported_during_call_ignored nat sampleCategories
           (λ _ _, {| reported := ["no data in range"]; completion := Returned |})
           (λ _ _, {| reported := []; completion := Returned |})).
  intros calls rq. reflexivity.
Defined.

(** A message that arrives after the chart has been painted. *)
Lemma late_report_shows_panel_witness :
  draws (@dispatch nat drawOk (Reported "late")
           (@dispatch nat drawOk (Rerender sampleInputs) initial))
  = draws (@dispatch nat drawOk (Rerender sampleInputs) initial) ∧
  state (@dispatch nat drawOk (Reported "late")
           (@dispatch nat drawOk (Rerender sampleInputs) initial))
  = {| renderError := "late";
       errorRetry :=
         errorRetry (state (@dispatch nat drawOk (Rerender sampleInputs) initial)) |} ∧
  view (@dispatch nat drawOk (Reported "late")
          (@dispatch nat drawOk (Rerender sampleInputs) initial))
  = VErrorPanel ("Render Error: " +:+ "late")
      (retryCaption
         (errorRetry (state (@dispatch nat drawOk (Rerender sampleInputs) initial)))).
Proof.
  apply (@late_report_shows_panel nat drawOk sampleInputs
           (@dispatch nat drawOk (Rerender sampleInputs) initial) "late");
    [repeat split; by vm_compute
    |by vm_compute|by vm_compute|by vm_compute|by vm_compute].
Defined.

(** A viewport 40 pixels wide: the chart is rendered, its canvas has no
    positive width. *)
Lemma canvas_positive_iff_witness :
  ∃ legend svg canvas,
    @render nat drawOk narrowInputs initialState = Some (VChart legend svg canvas) ∧
    (0 < cv_width canvas ↔ 50 < width narrowInputs) ∧
    (0 < cv_height canvas ↔ 32 < height narrowInputs).
Proof.
  destruct (@ChartLabels nat drawOk ["afk"; "ban"; "idle"]) as [rows|] eqn:HL;
    [|by vm_compute in HL].
  apply (@canvas_positive_iff nat drawOk narrowInputs initialState sampleData rows);
    [by vm_compute|by vm_compute|reflexivity|reflexivity|exact HL].
Defined.

(** The legend of the sample categories. *)
Lemma legend_keys_unique_witness :
  ∃ rows, @ChartLabels nat drawOk ["afk"; "ban"; "idle"] = Some rows ∧
    (NoDup (row_key <$> rows) ↔ NoDup ["afk"; "ban"; "idle"]) ∧
    slot_category <$> rows = row_key <$> rows.
Proof.
  destruct (@ChartLabels nat drawOk ["afk"; "ban"; "idle"]) as [rows|] eqn:HL;
    [|by vm_compute in HL].
  exists rows. split; [reflexivity|].
  destruct (@legend_keys_unique nat drawOk ["afk"; "ban"; "idle"] rows HL)
    as (Hn & Hs & _).
  split; [exact Hn|exact Hs].
Defined.

(** The sample store after two renders of the legend. *)
Lemma ChartLabels_store_again_witness :
  ∃ h', Nat.iter 2
          (λ s, default s (fst <$> @ArrayStore.ChartLabels_store nat drawOk s 5%positive))
          sampleStore = h' ∧
    h' !! 5%positive = Some ["afk"; "ban"; "idle"] ∧
    (snd <$> @ArrayStore.ChartLabels_store nat drawOk h' 5%positive)
    = Some (@ChartLabels nat drawOk ["afk"; "ban"; "idle"]).
Proof.
  apply (@ChartLabels_store_again nat drawOk 2 sampleStore 5%positive
           ["afk"; "ban"; "idle"]).
  by vm_compute.
Defined.

(** Mounting without a model, at the sample viewport. *)
Lemma missing_chartData_raises_witness :
  draws (@dispatch nat drawOk (Rerender missingDataInputs) initial)
  = draws (@initial nat) ∧
  crashed (@dispatch nat drawOk (Rerender missingDataInputs) initial) = true ∧
  view (@dispatch nat drawOk (Rerender missingDataInputs) initial) = VNull.
Proof.
  destruct (@missing_chartData_raises nat drawOk missingDataInputs initial)
    as (Hd & Hraise & _); [reflexivity|reflexivity|].
  destruct Hraise as [Hc Hv]; [by vm_compute|by vm_compute|reflexivity|].
  split; [exact Hd|split; [exact Hc|exact Hv]].
Defined.

(** The panel is showing, the model has since lost its buckets, and the
    user presses retry. *)
Lemma retry_without_data_dismisses_witness :
  draws (@dispatch nat (drawFails "X") Retry failedThenEmptied)
  = [requestOf sampleInputs sampleData] ∧
  state (@dispatch nat (drawFails "X") Retry failedThenEmptied)
  = {| renderError := ""; errorRetry := 1 |}.
Proof.
  destruct (@retry_without_data_dismisses nat (drawFails "X") emptyLogInputs
              (mkRef 2%positive
                 {| selectedPeriod := "day"; startDate := 0; endDate := 86400000;
                    maxDrops := 0; categoriesSorted := ["afk"; "ban"; "idle"];
                    log := [] |})
              failedThenEmptied)
    as (Hd & Hs & _);
    [repeat split; by vm_compute
    |by vm_compute|by vm_compute|by vm_compute|by vm_compute|by vm_compute
    |eexists; vm_compute; reflexivity
    |].
  vm_compute in Hd, Hs. vm_compute. split; [exact Hd|exact Hs].
Defined.
